(** * TileGeometryLoader: the geometry-loading controller of a map tile

    A shallow embedding of [TileGeometryLoader] (mapview/lib/geometry) and
    the properties of its lifecycle: kind classification of techniques,
    the stored kind configuration and its comparison, and the
    update / prepare / finish / reset state machine.

    JavaScript objects that the loader shares with its callers
    ([GeometryKindSet] instances, decoded tiles) live in an explicit
    store and are named by references, so that identity ([===]), in-place
    mutation ([clear], [add]) and aliasing are all visible. *)

From stdpp Require Import gmap strings list.
From Stdlib Require Import ZArith.

Open Scope Z_scope.
Open Scope nat_scope.

(** ** Values *)

(** Modelled from the spec: the [GeometryKind] enumeration is declared in
    the datasource-protocol package, outside the loader's sources.  It is
    an enumerated category tag; the loader names five members (area, line,
    building, label and the catch-all "all"), [OtherKind] stands for the
    remaining ones. *)
Inductive GeometryKind :=
  | All | Area | Line | Building | Label
  | OtherKind (tag : nat).

#[global] Instance GeometryKind_eq_dec : EqDecision GeometryKind.
Proof. solve_decision. Defined.

Definition GeometryKind_code (k : GeometryKind) : nat :=
  match k with
  | All => 0 | Area => 1 | Line => 2 | Building => 3 | Label => 4
  | OtherKind n => 5 + n
  end.

Definition GeometryKind_of_code (n : nat) : GeometryKind :=
  match n with
  | 0 => All | 1 => Area | 2 => Line | 3 => Building | 4 => Label
  | S (S (S (S (S m)))) => OtherKind m
  end.

#[global] Instance GeometryKind_countable : Countable GeometryKind :=
  inj_countable' GeometryKind_code GeometryKind_of_code
    (λ k, match k return GeometryKind_of_code (GeometryKind_code k) = k with
          | All | Area | Line | Building | Label | OtherKind _ => eq_refl
          end).

(** References to store-allocated objects. *)
Definition loc := nat.

(** What a JavaScript [Set] may hold and what [Set.prototype.has] may be
    asked about: a geometry kind (a primitive) or an object reference. *)
Inductive Value :=
  | VKind (k : GeometryKind)
  | VRef (l : loc).

#[global] Instance Value_eq_dec : EqDecision Value.
Proof. solve_decision. Defined.

Definition Value_code (v : Value) : GeometryKind + loc :=
  match v with VKind k => inl k | VRef l => inr l end.

Definition Value_of_code (c : GeometryKind + loc) : Value :=
  match c with inl k => VKind k | inr l => VRef l end.

#[global] Instance Value_countable : Countable Value :=
  inj_countable' Value_code Value_of_code
    (λ v, match v return Value_of_code (Value_code v) = v with
          | VKind _ | VRef _ => eq_refl
          end).

(** ** Store objects *)

(** Modelled from the spec: the class [GeometryKindSet] is declared in the
    datasource-protocol package, outside the loader's sources.  It is an
    unordered collection of kinds with set semantics; the loader uses it
    as the built-in [Set] it extends ([instanceof Set], construction from
    an array, [add], [has], [size], [clear], iteration).  The elements
    live in the [[SetData]] internal slot; [ownProps] are the own
    enumerable properties of the object, of which a newly constructed set
    has none. *)
Record SetObj := mkSetObj {
  setData : gset Value;
  ownProps : gmap string Value
}.

Definition emptySetObj : SetObj := mkSetObj ∅ ∅.

(** Modelled from the spec: the technique types and their type guards
    ([isFillTechnique], [isLineTechnique], ...) are declared in the
    datasource-protocol package, outside the loader's sources.  A
    technique has one structural classification, which the guards tell
    apart. *)
Inductive TechniqueClass :=
  | FillT | LineT | SolidLineT | SegmentsT | ExtrudedLineT
  | ExtrudedPolygonT | PoiT | LineMarkerT | TextT
  | UnrecognizedT.

(** The [kind] field of a technique when present: one kind, a raw array of
    kinds, or a [GeometryKindSet]. *)
Inductive KindField :=
  | KSingle (k : GeometryKind)
  | KArray (ks : list GeometryKind)
  | KSet (s : loc).

Record Technique := mkTechnique {
  tclass : TechniqueClass;
  kind : option KindField
}.

Record DecodedTile := mkDecodedTile {
  techniques : list Technique
}.

Record Heap := mkHeap {
  kindSets : gmap loc SetObj;
  payloads : gmap loc DecodedTile;
  nextLoc : loc
}.

Definition emptyHeap : Heap := mkHeap ∅ ∅ 0.

(** ** Built-in operations on [Set] objects *)

Module JSSet.

Definition obj (h : Heap) (s : loc) : SetObj :=
  default emptySetObj (kindSets h !! s).

Definition data (h : Heap) (s : loc) : gset Value := setData (obj h s).

Definition store (s : loc) (o : SetObj) (h : Heap) : Heap :=
  mkHeap (<[s := o]> (kindSets h)) (payloads h) (nextLoc h).

(** [new GeometryKindSet(elements)] *)
Definition new (elements : list Value) (h : Heap) : loc * Heap :=
  let s := nextLoc h in
  (s, mkHeap (<[s := mkSetObj (list_to_set elements) ∅]> (kindSets h))
             (payloads h) (S s)).

(** [s.has(v)]: membership of the value [v] among the elements. *)
Definition has (h : Heap) (s : loc) (v : Value) : bool :=
  bool_decide (v ∈ data h s).

(** [s.size] *)
Definition size (h : Heap) (s : loc) : nat := size (data h s).

(** [s.add(v)] *)
Definition add (s : loc) (v : Value) (h : Heap) : Heap :=
  store s (mkSetObj ({[v]} ∪ data h s) (ownProps (obj h s))) h.

(** [for (const v of src) dst.add(v)] *)
Definition addAll (dst src : loc) (h : Heap) : Heap :=
  store dst (mkSetObj (data h src ∪ data h dst) (ownProps (obj h dst))) h.

(** [s.clear()] *)
Definition clear (s : loc) (h : Heap) : Heap :=
  store s (mkSetObj ∅ (ownProps (obj h s))) h.

(** [Object.assign(target, source)]: every own enumerable property of
    [source] is written to [target]; the result is [target].  The
    [[SetData]] slot is not a property and is left alone. *)
Definition assign (target source : loc) (h : Heap) : loc * Heap :=
  (target,
   store target
     (mkSetObj (data h target) (ownProps (obj h source) ∪ ownProps (obj h target))) h).

End JSSet.

(** ** Static helpers of the loader *)

(** Modelled from the spec: the nine type guards, each a test of the
    technique's structural class. *)
Definition isFillTechnique (t : Technique) : bool :=
  match tclass t with FillT => true | _ => false end.
Definition isLineTechnique (t : Technique) : bool :=
  match tclass t with LineT => true | _ => false end.
Definition isSolidLineTechnique (t : Technique) : bool :=
  match tclass t with SolidLineT => true | _ => false end.
Definition isSegmentsTechnique (t : Technique) : bool :=
  match tclass t with SegmentsT => true | _ => false end.
Definition isExtrudedLineTechnique (t : Technique) : bool :=
  match tclass t with ExtrudedLineT => true | _ => false end.
Definition isExtrudedPolygonTechnique (t : Technique) : bool :=
  match tclass t with ExtrudedPolygonT => true | _ => false end.
Definition isPoiTechnique (t : Technique) : bool :=
  match tclass t with PoiT => true | _ => false end.
Definition isLineMarkerTechnique (t : Technique) : bool :=
  match tclass t with LineMarkerT => true | _ => false end.
Definition isTextTechnique (t : Technique) : bool :=
  match tclass t with TextT => true | _ => false end.

(** What [compileGeometryKind] returns: [GeometryKind | GeometryKindSet]. *)
Inductive KindResult :=
  | RKind (k : GeometryKind)
  | RSet (s : loc).

(** The default kind of a technique that declares none. *)
Definition defaultGeometryKind (t : Technique) : GeometryKind :=
  if isFillTechnique t then Area
  else if isLineTechnique t || isSolidLineTechnique t
          || isSegmentsTechnique t || isExtrudedLineTechnique t then Line
  else if isExtrudedPolygonTechnique t then Building
  else if isPoiTechnique t || isLineMarkerTechnique t || isTextTechnique t then Label
  else All.

(** [TileGeometryLoader.compileGeometryKind]: the result, the technique as
    the call leaves it, and the store. *)
Definition compileGeometryKind (t : Technique) (h : Heap)
  : KindResult * Technique * Heap :=
  match kind t with
  | None =>
      let geometryKind := defaultGeometryKind t in
      (RKind geometryKind, mkTechnique (tclass t) (Some (KSingle geometryKind)), h)
  | Some (KArray ks) =>
      let '(s, h') := JSSet.new (VKind <$> ks) h in
      (RSet s, mkTechnique (tclass t) (Some (KSet s)), h')
  | Some (KSingle k) => (RKind k, t, h)
  | Some (KSet s) => (RSet s, t, h)
  end.

(** The loop body of [prepareAvailableGeometryKinds] over the techniques
    still to visit; returns the techniques as the loop leaves them. *)
Fixpoint gatherGeometryKinds (foundSet : loc) (ts : list Technique) (h : Heap)
  : list Technique * Heap :=
  match ts with
  | [] => ([], h)
  | technique :: rest =>
      let '(geometryKind, technique', h1) := compileGeometryKind technique h in
      let h2 := match geometryKind with
                | RSet s => JSSet.addAll foundSet s h1
                | RKind k => JSSet.add foundSet (VKind k) h1
                end in
      let '(rest', h3) := gatherGeometryKinds foundSet rest h2 in
      (technique' :: rest', h3)
  end.

(** [TileGeometryLoader.prepareAvailableGeometryKinds(decodedTile)] *)
Definition prepareAvailableGeometryKinds (decodedTile : loc) (h : Heap) : loc * Heap :=
  let '(foundSet, h0) := JSSet.new [] h in
  match payloads h0 !! decodedTile with
  | Some d =>
      let '(ts', h1) := gatherGeometryKinds foundSet (techniques d) h0 in
      (foundSet,
       mkHeap (kindSets h1) (<[decodedTile := mkDecodedTile ts']> (payloads h1)) (nextLoc h1))
  | None => (foundSet, h0)
  end.

(** ** The loader, its tile and its collaborators *)

(** The private fields of a [TileGeometryLoader]. *)
Record Loader := mkLoader {
  m_decodedTile : option loc;
  m_isFinished : bool;
  m_availableGeometryKinds : option loc;
  m_enabledKinds : option loc;
  m_disabledKinds : option loc;
  m_priority : Z
}.

(** [new TileGeometryLoader(tile, taskQueue)] *)
Definition newLoader : Loader := mkLoader None false None None None 0%Z.

(** Modelled from the spec: [Tile], its data source and the statistics
    singleton are declared outside the loader's sources.  [World] holds
    what the loader reads from them: the tile's [isVisible], [disposed],
    [decodedTile], [tileLoader?.isFinished] and [hasGeometry], the data
    source's [isDetached()] and the statistics' [enabled]. *)
Record World := mkWorld {
  isVisible : bool;
  disposed : bool;
  decodedTile : option loc;
  tileLoader : option bool;
  hasGeometry : bool;
  isDetached : bool;
  statsEnabled : bool
}.

(** The work item handed to the task queue: [execute] is [prepare] bound
    to the two kind sets, the group is [TileTaskGroups.CREATE]. *)
Record Task := mkTask {
  boundEnabledKinds : option loc;
  boundDisabledKinds : option loc
}.

#[global] Instance Task_eq_dec : EqDecision Task.
Proof. solve_decision. Defined.

Inductive StatsMessage := DecodedMsg | DiscardedInvisibleMsg | DiscardedDisposedMsg.

#[global] Instance StatsMessage_eq_dec : EqDecision StatsMessage.
Proof. solve_decision. Defined.

(** Calls that leave the loader. *)
Inductive Call :=
  | LoadingFinished                              (* tile.loadingFinished() *)
  | RemoveDecodedTile                            (* tile.removeDecodedTile() *)
  | DisposeTile                                  (* visibleTileSet.disposeTile(tile) *)
  | TileClear                                    (* tile.clear() *)
  | RequestUpdate                                (* tile.dataSource.requestUpdate() *)
  | ProcessTechniques (enabledKinds disabledKinds : option loc)
  | InitDecodedTile (decoded : loc) (enabledKinds disabledKinds : option loc)
  | CreateAllGeometries (decoded : loc)
  | StatsAddValue (name : string)
  | StatsAddMessage (m : StatsMessage)
  | QueueAdd (task : Task).                      (* m_taskQueue.add({...}) *)

#[global] Instance Call_eq_dec : EqDecision Call.
Proof. solve_decision. Defined.

Definition isQueueAdd (c : Call) : bool :=
  match c with QueueAdd _ => true | _ => false end.

Definition isGeometryCreation (c : Call) : bool :=
  match c with
  | InitDecodedTile _ _ _ | CreateAllGeometries _ | ProcessTechniques _ _ => true
  | _ => false
  end.

Record Sys := mkSys {
  loader : Loader;
  heap : Heap;
  world : World;
  trace : list Call
}.

(** State passing, written as a small state monad. *)
Definition M (A : Type) : Type := Sys → A * Sys.

Definition ret {A} (a : A) : M A := λ s, (a, s).

Definition bind {A B} (m : M A) (k : A → M B) : M B :=
  λ s, match m s with (a, s') => k a s' end.

Notation "'do' x <- m ; k" := (bind m (λ x, k))
  (at level 10, x name, m at level 99, k at level 200).
Notation "m ;; k" := (bind m (λ _, k))
  (at level 100, k at level 200, right associativity).

Definition getSys : M Sys := λ s, (s, s).
Definition getLoader : M Loader := λ s, (loader s, s).
Definition getWorld : M World := λ s, (world s, s).

Definition putLoader (f : Loader → Loader) : M unit :=
  λ s, (tt, mkSys (f (loader s)) (heap s) (world s) (trace s)).

Definition onHeap {A} (f : Heap → A * Heap) : M A :=
  λ s, match f (heap s) with
       | (a, h) => (a, mkSys (loader s) h (world s) (trace s))
       end.

Definition set_decodedTile (v : option loc) (c : Loader) : Loader :=
  mkLoader v (m_isFinished c) (m_availableGeometryKinds c)
           (m_enabledKinds c) (m_disabledKinds c) (m_priority c).
Definition set_isFinished (v : bool) (c : Loader) : Loader :=
  mkLoader (m_decodedTile c) v (m_availableGeometryKinds c)
           (m_enabledKinds c) (m_disabledKinds c) (m_priority c).
Definition set_availableGeometryKinds (v : option loc) (c : Loader) : Loader :=
  mkLoader (m_decodedTile c) (m_isFinished c) v
           (m_enabledKinds c) (m_disabledKinds c) (m_priority c).
Definition set_enabledKinds (v : option loc) (c : Loader) : Loader :=
  mkLoader (m_decodedTile c) (m_isFinished c) (m_availableGeometryKinds c)
           v (m_disabledKinds c) (m_priority c).
Definition set_disabledKinds (v : option loc) (c : Loader) : Loader :=
  mkLoader (m_decodedTile c) (m_isFinished c) (m_availableGeometryKinds c)
           (m_enabledKinds c) v (m_priority c).
Definition set_priority (v : Z) (c : Loader) : Loader :=
  mkLoader (m_decodedTile c) (m_isFinished c) (m_availableGeometryKinds c)
           (m_enabledKinds c) (m_disabledKinds c) v.

(** [s?.clear()] *)
Definition clearIfDefined (s : option loc) (h : Heap) : Heap :=
  match s with Some l => JSSet.clear l h | None => h end.

(** [s === undefined || s.size === 0] *)
Definition undefinedOrEmpty (h : Heap) (s : option loc) : bool :=
  match s with None => true | Some l => Nat.eqb (JSSet.size h l) 0 end.

(** [a === b] on [GeometryKindSet | undefined] *)
Definition sameRef (a b : option loc) : bool := bool_decide (a = b).

(** ** The loader's methods *)

(** The calls of the statistics block of [prepare], in order. *)
Definition statisticsCalls : list Call :=
  [StatsAddValue "render.fullFrameTime";
   StatsAddValue "render.geometryCreationTime";
   StatsAddValue "geometry.geometryCreationTime";
   StatsAddValue "geometryCount.numGeometries";
   StatsAddValue "geometryCount.numTechniques";
   StatsAddValue "geometryCount.numPoiGeometries";
   StatsAddValue "geometryCount.numTextGeometries";
   StatsAddValue "geometryCount.numTextPathGeometries";
   StatsAddValue "geometryCount.numPathGeometries";
   StatsAddMessage DecodedMsg].


Section Methods.

(** The effect of each outgoing call on what the loader reads back from
    its surroundings.  The collaborators (tile, visible-tile set,
    geometry creator, task queue, statistics) are not part of the
    loader; every result below holds whatever they do. *)
Variable effect : Call → World → World.

(** An outgoing call: recorded, and its effect applied. *)
Definition call (c : Call) : M unit :=
  λ s, (tt, mkSys (loader s) (heap s) (effect c (world s)) (trace s ++ [c])).

(** [get isFinished] *)
Definition isFinished (s : Sys) : bool := m_isFinished (loader s).

(** [get geometryCreationPending] *)
Definition geometryCreationPending (s : Sys) : bool :=
  negb (isFinished s) && bool_decide (m_decodedTile (loader s) ≠ None).

(** [get availableGeometryKinds] *)
Definition availableGeometryKinds (s : Sys) : option loc :=
  m_availableGeometryKinds (loader s).

(** [get basicGeometryLoaded] and [get allGeometryLoaded] *)
Definition basicGeometryLoaded (s : Sys) : bool := hasGeometry (world s).
Definition allGeometryLoaded (s : Sys) : bool := m_isFinished (loader s).

(** [set priority] and [getPriority()] *)
Definition setPriority (value : Z) : M unit := putLoader (set_priority value).
Definition getPriority (s : Sys) : Z := m_priority (loader s).

(** [setDecodedTile(decodedTile)] *)
Definition setDecodedTile (decoded : option loc) : M (option loc) :=
  putLoader (set_decodedTile decoded) ;;
  match decoded with
  | Some d =>
      do found <- onHeap (prepareAvailableGeometryKinds d);
      putLoader (set_availableGeometryKinds (Some found)) ;;
      ret decoded
  | None => ret decoded
  end.

(** [dispose()] *)
Definition dispose : M unit := putLoader (set_decodedTile None).

(** [reset()] *)
Definition reset : M unit :=
  do c <- getLoader;
  onHeap (λ h, (tt, clearIfDefined (m_availableGeometryKinds c) h)) ;;
  onHeap (λ h, (tt, clearIfDefined (m_enabledKinds c) h)) ;;
  onHeap (λ h, (tt, clearIfDefined (m_disabledKinds c) h)) ;;
  putLoader (set_decodedTile None) ;;
  putLoader (set_isFinished false).

(** [finish()] *)
Definition finish : M unit :=
  call LoadingFinished ;;
  call RemoveDecodedTile ;;
  putLoader (set_decodedTile None) ;;
  putLoader (set_isFinished true).

(** [discardNeedlessTile(tile)] *)
Definition discardNeedlessTile : M bool :=
  do w <- getWorld;
  if negb (isVisible w) then
    call DisposeTile ;;
    do w1 <- getWorld;
    (if statsEnabled w1 then call (StatsAddMessage DiscardedInvisibleMsg) else ret tt) ;;
    finish ;;
    ret true
  else if disposed w then
    (if statsEnabled w then call (StatsAddMessage DiscardedDisposedMsg) else ret tt) ;;
    finish ;;
    ret true
  else ret false.

(** [Object.assign(stored ?? new GeometryKindSet(), supplied)] *)
Definition assignInto (stored : option loc) (supplied : loc) (h : Heap) : loc * Heap :=
  match stored with
  | Some target => JSSet.assign target supplied h
  | None =>
      let '(target, h') := JSSet.new [] h in
      JSSet.assign target supplied h'
  end.

(** [setGeometryKinds(enabledKinds, disabledKinds)] *)
Definition setGeometryKinds (enabledKinds disabledKinds : option loc) : M unit :=
  (match enabledKinds with
   | Some e =>
       do c <- getLoader;
       do r <- onHeap (assignInto (m_enabledKinds c) e);
       putLoader (set_enabledKinds (Some r))
   | None => ret tt
   end) ;;
  match disabledKinds with
  | Some d =>
      do c <- getLoader;
      do r <- onHeap (assignInto (m_disabledKinds c) d);
      putLoader (set_disabledKinds (Some r))
  | None => ret tt
  end.

(** One axis of the final comparison in [compareGeometryKinds]: [true]
    when the branch executes [return false]. *)
Definition axisReturnsFalse (h : Heap) (supplied stored : option loc) : bool :=
  match supplied, stored with
  | Some n, Some s => negb (JSSet.has h n (VRef s))
  | _, _ => true
  end.

(** [compareGeometryKinds(enabledKinds, disabledKinds)] *)
Definition compareGeometryKinds (c : Loader) (h : Heap)
    (enabledKinds disabledKinds : option loc) : bool :=
  let enabledSame := sameRef (m_enabledKinds c) enabledKinds in
  let disabledSame := sameRef (m_disabledKinds c) disabledKinds in
  if enabledSame && disabledSame then true
  else
    let enabledEmpty :=
      undefinedOrEmpty h (m_enabledKinds c) && undefinedOrEmpty h enabledKinds in
    let disabledEmpty :=
      undefinedOrEmpty h (m_disabledKinds c) && undefinedOrEmpty h disabledKinds in
    if (enabledEmpty && disabledEmpty)
       || (enabledSame && disabledEmpty)
       || (disabledSame && enabledEmpty) then true
    else if negb enabledEmpty && axisReturnsFalse h enabledKinds (m_enabledKinds c)
    then false
    else if negb disabledEmpty && axisReturnsFalse h disabledKinds (m_disabledKinds c)
    then false
    else true.

(** [prepareForRender(enabledKinds, disabledKinds)] *)
Definition prepareForRender (enabledKinds disabledKinds : option loc) : M unit :=
  do c <- getLoader;
  match m_decodedTile c with
  | None => finish
  | Some _ => call (QueueAdd (mkTask enabledKinds disabledKinds))
  end.

(** Outgoing calls made one after the other. *)
Fixpoint callSeq (cs : list Call) : M unit :=
  match cs with
  | [] => ret tt
  | c :: rest => call c ;; callSeq rest
  end.

(** The statistics block of [prepare], entered when [stats.enabled]. *)
Definition recordStatistics : M unit := callSeq statisticsCalls.

(** [prepare(enabledKinds, disabledKinds)]: the action the queue runs. *)
Definition prepare (enabledKinds disabledKinds : option loc) : M unit :=
  do c <- getLoader;
  match m_decodedTile c with
  | None => finish
  | Some decoded =>
      do discarded <- discardNeedlessTile;
      if discarded then ret tt
      else
        call TileClear ;;
        call (InitDecodedTile decoded enabledKinds disabledKinds) ;;
        call (CreateAllGeometries decoded) ;;
        do w <- getWorld;
        (if statsEnabled w then recordStatistics else ret tt) ;;
        finish ;;
        call RequestUpdate
  end.

(** [tile.tileLoader?.isFinished && tile.decodedTile === undefined] *)
Definition tileHasNoData (w : World) : bool :=
  default false (tileLoader w) && bool_decide (decodedTile w = None).

(** Lines 225-230 of [update]: the start of a loading cycle. *)
Definition beginCycle (enabledKinds disabledKinds : option loc) : M unit :=
  do s <- getSys;
  if negb (geometryCreationPending s) && bool_decide (decodedTile (world s) ≠ None) then
    call (ProcessTechniques enabledKinds disabledKinds) ;;
    setGeometryKinds enabledKinds disabledKinds ;;
    do w <- getWorld;
    setDecodedTile (decodedTile w) ;;
    prepareForRender enabledKinds disabledKinds
  else ret tt.

(** [update(enabledKinds, disabledKinds)] *)
Definition update (enabledKinds disabledKinds : option loc) : M unit :=
  do s <- getSys;
  if isFinished s then ret tt
  else
    do discarded <- discardNeedlessTile;
    if discarded then ret tt
    else
      do w <- getWorld;
      if tileHasNoData w then finish
      else
        do s1 <- getSys;
        (if geometryCreationPending s1
            && negb (compareGeometryKinds (loader s1) (heap s1) enabledKinds disabledKinds)
         then reset else ret tt) ;;
        beginCycle enabledKinds disabledKinds.

(** The queue invoking a submitted task's [execute]. *)
Definition execute (t : Task) : M unit :=
  prepare (boundEnabledKinds t) (boundDisabledKinds t).

(** The task's [isExpired()] *)
Definition isExpired (s : Sys) : bool :=
  negb (isVisible (world s)) || isDetached (world s).

End Methods.

(** ** Equivalence of kind configurations, as the specification words it *)

Module SpecWords.

(** "empty-or-undefined" *)
Definition emptyOrUndefined (h : Heap) (s : option loc) : bool :=
  match s with None => true | Some l => bool_decide (JSSet.data h l = ∅) end.

(** One set contains every element of the other. *)
Definition containment (h : Heap) (stored supplied : loc) : bool :=
  bool_decide (JSSet.data h supplied ⊆ JSSet.data h stored)
  || bool_decide (JSSet.data h stored ⊆ JSSet.data h supplied).

(** One axis: reference-identical or both empty-or-undefined match;
    exactly one side empty-or-undefined differs; two non-empty sets are
    compared by containment. *)
Definition axisMatches (h : Heap) (stored supplied : option loc) : bool :=
  if sameRef stored supplied
     || (emptyOrUndefined h stored && emptyOrUndefined h supplied) then true
  else
    match stored, supplied with
    | Some s, Some n =>
        if emptyOrUndefined h stored || emptyOrUndefined h supplied then false
        else containment h s n
    | _, _ => false
    end.

(** Equivalent only if both axes match. *)
Definition kindsEquivalent (h : Heap)
    (storedEnabled storedDisabled newEnabled newDisabled : option loc) : bool :=
  axisMatches h storedEnabled newEnabled && axisMatches h storedDisabled newDisabled.

End SpecWords.

(** A supplied kind set holds geometry kinds only. *)
Definition isKindValue (v : Value) : bool :=
  match v with VKind _ => true | VRef _ => false end.

Definition kindsOnly (h : Heap) (s : option loc) : bool :=
  match s with
  | None => true
  | Some l => forallb isKindValue (elements (JSSet.data h l))
  end.

(** An axis holding two distinct set objects, both non-empty. *)
Definition distinctNonEmpty (h : Heap) (stored supplied : option loc) : bool :=
  match stored, supplied with
  | Some s, Some n =>
      negb (sameRef stored supplied)
      && negb (Nat.eqb (JSSet.size h s) 0) && negb (Nat.eqb (JSSet.size h n) 0)
  | _, _ => false
  end.

(** The calls a method adds to the trace. *)
Definition callsSince (before after : Sys) : list Call :=
  drop (length (trace before)) (trace after).

(** The consistency condition between the two lifecycle fields. *)
Definition finishedHoldsNoPayload (s : Sys) : Prop :=
  m_isFinished (loader s) = true → m_decodedTile (loader s) = None.

(** ** Concrete situations *)

Module Scenario.

(** Collaborators that change nothing the loader reads back. *)
Definition quiet : Call → World → World := λ _ w, w.

(** A tile that releases its payload on [removeDecodedTile()]. *)
Definition releasing : Call → World → World :=
  λ c w,
    match c with
    | RemoveDecodedTile =>
        mkWorld (isVisible w) (disposed w) None (tileLoader w)
                (hasGeometry w) (isDetached w) (statsEnabled w)
    | _ => w
    end.

(** Payload 0 has one line technique of unspecified kind; object 1 is
    the caller's set [{Line}], object 2 another set [{Line}], object 3
    the caller's set [{Area}]. *)
Definition store0 : Heap :=
  mkHeap {[ 1 := mkSetObj {[VKind Line]} ∅;
            2 := mkSetObj {[VKind Line]} ∅;
            3 := mkSetObj {[VKind Area]} ∅ ]}
         {[ 0 := mkDecodedTile [mkTechnique LineT None] ]}
         4.

Definition visibleTile : World :=
  mkWorld true false (Some 0) (Some true) false false false.

Definition invisibleTile : World :=
  mkWorld false false (Some 0) (Some true) false false false.

(** A fresh loader on a visible tile with a decoded payload. *)
Definition fresh : Sys := mkSys newLoader store0 visibleTile [].

(** After the first [update({Line}, undefined)]. *)
Definition scheduled : Sys := (update quiet (Some 1) None fresh).2.

(** The same, after the camera moved away. *)
Definition scheduledInvisible : Sys :=
  mkSys (loader scheduled) (heap scheduled) invisibleTile (trace scheduled).

(** A loader whose stored enabled set is object 1, written down by hand:
    no sequence of calls stores a set that holds a kind. *)
Definition storingLine : Loader := mkLoader (Some 0) false None (Some 1) None 0%Z.

(** A finished loader. *)
Definition finished : Sys :=
  mkSys (mkLoader None true None None None 0%Z) store0 visibleTile [].

End Scenario.

(** ** What a technique contributes to the available kinds *)

(** The kinds a technique stands for: its declared kind, the members of
    its declared array or set, or the default of its class. *)
Definition classifiedKinds (h : Heap) (t : Technique) : gset Value :=
  match kind t with
  | None => {[VKind (defaultGeometryKind t)]}
  | Some (KSingle k) => {[VKind k]}
  | Some (KArray ks) => list_to_set (VKind <$> ks)
  | Some (KSet s) => JSSet.data h s
  end.

(** A [kind] field as [compileGeometryKind] leaves it: one kind or a set,
    never absent and never a raw array. *)
Definition normalizedKind (t : Technique) : bool :=
  match kind t with
  | Some (KSingle _) | Some (KSet _) => true
  | _ => false
  end.

(** The set objects a technique refers to were allocated before [bound]
    and are not [found]. *)
Definition refersBelow (bound found : loc) (t : Technique) : Prop :=
  ∀ s, kind t = Some (KSet s) → s < bound ∧ s ≠ found.

(** Every set object the techniques refer to was allocated in [h]. *)
Definition kindSetsAllocated (h : Heap) (ts : list Technique) : bool :=
  forallb (λ t, match kind t with
                | Some (KSet s) => s <? nextLoc h
                | _ => true
                end) ts.

(** A payload whose techniques declare their kinds in every possible
    way. *)
Module Sample.

(** Object 1 is a kind set [{Label, OtherKind 7}] referred to by the third
    technique of payload 0; payload 2 holds the same techniques in another
    order. *)
Definition mixed : list Technique :=
  [mkTechnique LineT None;
   mkTechnique FillT (Some (KArray [Area; Building; Area]));
   mkTechnique TextT (Some (KSet 1));
   mkTechnique PoiT (Some (KSingle (OtherKind 3)))].

Definition store : Heap :=
  mkHeap {[ 1 := mkSetObj {[VKind Label; VKind (OtherKind 7)]} ∅ ]}
         {[ 0 := mkDecodedTile mixed; 2 := mkDecodedTile (reverse mixed) ]}
         3.

Definition tile : World := mkWorld true false (Some 0) (Some true) false false false.

Definition statsTile : World := mkWorld true false (Some 0) (Some true) false false true.

Definition disposedTile : World := mkWorld true true (Some 0) (Some true) false false false.

Definition emptyTile : World := mkWorld true false None (Some true) false false false.

Definition fresh : Sys := mkSys newLoader store tile [].

End Sample.

(** The calls by which [prepare] builds geometry and announces it. *)
Definition isBuildCall (c : Call) : bool :=
  match c with
  | TileClear | InitDecodedTile _ _ _ | CreateAllGeometries _ | RequestUpdate => true
  | _ => false
  end.

(** The calls that change the tile's geometry: clearing the tile,
    initialising the decoded tile, creating the geometries. *)
Definition isTileBuild (c : Call) : bool :=
  match c with
  | TileClear | InitDecodedTile _ _ _ | CreateAllGeometries _ => true
  | _ => false
  end.

(** The optional statistics message of a discard. *)
Definition discardNote (m : StatsMessage) (note : list Call) : Prop :=
  note = [] ∨ note = [StatsAddMessage m].

(** One axis as [compareGeometryKinds] accepts it without looking into
    the sets: the same reference, or both sides undefined or empty. *)
Definition axisUnchanged (h : Heap) (stored supplied : option loc) : bool :=
  sameRef stored supplied
  || (undefinedOrEmpty h stored && undefinedOrEmpty h supplied).

(** The stored configuration holds no kind: each stored set is an object
    of the store, allocated before, without elements. *)
Definition storedSetsEmpty (s : Sys) : Prop :=
  ∀ r, m_enabledKinds (loader s) = Some r ∨ m_disabledKinds (loader s) = Some r →
       r < nextLoc (heap s) ∧ JSSet.data (heap s) r = ∅.

(** A step that leaves the stored configuration and the store alone. *)
Definition keepsStored (s s' : Sys) : Prop :=
  m_enabledKinds (loader s') = m_enabledKinds (loader s)
  ∧ m_disabledKinds (loader s') = m_disabledKinds (loader s)
  ∧ heap s' = heap s.

(** ** The OMV data source

    [OmvDataSource] (harp-omv-datasource/lib/OmvDataSource.ts): how its
    parameters become decoder options, and how its methods reconfigure
    the decoder.  The base class, the decoder, the map view, the logger
    and the helpers imported from other packages are outside this file;
    what the data source needs from them is gathered in [Env], and every
    result holds for every [Env].  The record of calls holds the calls
    written in OmvDataSource.ts; what the base class does inside
    [super.connect()] (it may talk to the decoder itself) is one entry,
    [SuperConnect], and is not looked into. *)

Module Omv.

(** Opaque objects (decoders, providers, factories, filter descriptions,
    expressions) are named by references. *)
Definition ObjRef := nat.

(** JavaScript truthiness of an optional string. *)
Definition truthyString (s : option string) : bool :=
  match s with
  | None | Some EmptyString => false
  | Some _ => true
  end.

(** The fields of [OmvWithRestClientParams | OmvWithCustomDataProvider]
    that the data source reads. *)
Record Params := mkParams {
  name : option string;
  styleSetName : option string;
  minZoomLevel : option Z;
  maxZoomLevel : option Z;
  minDataLevel : option Z;
  maxDataLevel : option Z;
  minDisplayLevel : option Z;
  maxDisplayLevel : option Z;
  storageLevelOffset : option Z;
  showMissingTechniques : option bool;
  createTileInfo : option bool;
  decoder : option ObjRef;
  dataProvider : option ObjRef;
  concurrentDecoderScriptUrl : option string;
  gatherFeatureAttributes : option bool;
  gatherRoadSegments : option bool;
  skipShortLabels : option bool;
  filterDescr : option ObjRef;
  tileFactory : option ObjRef;
  featureModifierId : option ObjRef;
  copyrightInfo : option ObjRef;
  copyrightProvider : option ObjRef;
  maxGeometryHeight : option Z;
  enableElevationOverlay : option bool;
  addGroundPlane : option bool;
  baseUrl : option string;
  url : option string
}.

Definition noParams : Params :=
  mkParams None None None None None None None None None None None None None None
           None None None None None None None None None None None None None.

Inductive DataProvider :=
  | CustomDataProvider (provider : ObjRef)
  | OmvRestClient (params : Params).          (* new OmvRestClient(params) *)

Inductive TileFactory :=
  | CustomTileFactory (factory : ObjRef)
  | OmvTileFactory.                           (* new TileFactory(OmvTile) *)

Definition missingProviderMessage : string :=
  "OmvDataSource: missing url, baseUrl or dataProvider params".

(** [getDataProvider(params)]: [inl] is the thrown error's message. *)
Definition getDataProvider (params : Params) : string + DataProvider :=
  match dataProvider params with
  | Some p => inr (CustomDataProvider p)
  | None =>
      if truthyString (baseUrl params) || truthyString (url params)
      then inr (OmvRestClient params)
      else inl missingProviderMessage
  end.

(** The argument of [setDataFilter]: [null] or a value (a filter
    description, a JSON array or an [Expr]). *)
Inductive FilterArg :=
  | FNull
  | FValue (v : ObjRef).

(** What [m_decoderOptions.dataFilter] holds: the result of [toJSON()] on
    an expression, or the JSON array as given. *)
Inductive DataFilter :=
  | ToJSON (expr : FilterArg)
  | AsGiven (json : FilterArg).

(** [OmvDecoderOptions] as the data source fills it. *)
Record DecoderOptions := mkDecoderOptions {
  o_showMissingTechniques : bool;
  o_filterDescription : option FilterArg;
  o_gatherFeatureAttributes : bool;
  o_createTileInfo : bool;
  o_gatherRoadSegments : bool;
  o_featureModifierId : option ObjRef;
  o_skipShortLabels : option bool;
  o_storageLevelOffset : Z;
  o_enableElevationOverlay : bool;
  o_dataFilter : option DataFilter
}.

(** The option objects handed to [decoder.configure]. *)
Inductive OptionsMap :=
  | AllOptions (o : DecoderOptions)           (* this.m_decoderOptions *)
  | NoFilters                                 (* { filterDescription: null, dataFilter: null } *)
  | DataFilterOption (f : FilterArg)          (* { dataFilter: filterDescription } *)
  | FilterDescriptionOption (f : FilterArg)   (* { filterDescription } *)
  | StorageLevelOffsetOption (z : Z)          (* { storageLevelOffset } *)
  | ElevationOverlayOption (b : bool).        (* { enableElevationOverlay: enable } *)

(** The options object passed to the base-class constructor; the tiling
    scheme and the decoder service name are constants. *)
Record SuperOptions := mkSuperOptions {
  so_styleSetName : string;
  so_name : option string;
  so_dataProvider : DataProvider;
  so_decoder : option ObjRef;
  so_concurrentDecoderScriptUrl : option string;
  so_copyrightInfo : option ObjRef;
  so_copyrightProvider : option ObjRef;
  so_minZoomLevel : option Z;
  so_maxZoomLevel : option Z;
  so_minDataLevel : Z;
  so_maxDataLevel : Z;
  so_minDisplayLevel : option Z;
  so_maxDisplayLevel : option Z;
  so_storageLevelOffset : Z
}.

(** What lies outside the file.  [Error] is the type of thrown values:
    JavaScript can throw anything, so [super.connect()] may reject with a
    value that is no [Error] object, and
    [WorkerServiceProtocol.isUnknownServiceError], which is handed that
    value, may throw itself instead of answering ([inl]). *)
Record Env := mkEnv {
  Base : Type;                                 (* the state of the base class *)
  Error : Type;                                (* thrown values *)
  getOptionValue : option Z → Z → Z;           (* harp-utils *)
  MAX_BUILDING_HEIGHT : Z;                     (* EarthConstants *)
  superNew : TileFactory → SuperOptions → Base;
  superGetStorageLevelOffset : Base → Z;
  superSetStorageLevelOffset : Z → Base → Base;
  superConnect : option Error → Base → Base;   (* the base class after [super.connect()] *)
  isUnknownServiceError : Error → Error + bool; (* WorkerServiceProtocol *)
  isJsonExpr : FilterArg → bool;
  isExpr : FilterArg → bool                    (* Expr.isExpr *)
}.

(** Calls that leave the data source.  [SuperConnect] is the whole of
    [super.connect()], with whatever the base class calls inside it. *)
Inductive Call :=
  | SuperConnect                                         (* super.connect() *)
  | LoggerInfo                                           (* logger.info(...) *)
  | ClearCache                                           (* this.clearCache() *)
  | DecoderConfigure (styleSet definitions : option ObjRef)
      (languages : option (list string)) (options : option OptionsMap)
  | MarkTilesDirty.                                      (* mapView.markTilesDirty(this) *)

Definition isDecoderConfigure (c : Call) : bool :=
  match c with DecoderConfigure _ _ _ _ => true | _ => false end.

Definition isLoggerInfo (c : Call) : bool :=
  match c with LoggerInfo => true | _ => false end.

Section DataSource.

Variable E : Env.

(** An [OmvDataSource] instance. *)
Record DataSource := mkDataSource {
  m_params : Params;
  m_decoderOptions : DecoderOptions;
  cacheable : bool;
  groundPlane : bool;                          (* this.addGroundPlane *)
  geometryHeight : Z;                          (* this.maxGeometryHeight *)
  base : Base E
}.

(** The module variable [missingOmvDecoderServiceInfoEmitted], the
    instance, and the calls made so far. *)
Record State := mkState {
  infoEmitted : bool;
  self : DataSource;
  calls : list Call
}.

Definition isTrue (b : option bool) : bool :=
  match b with Some true => true | _ => false end.

Definition superOptions (p : Params) (provider : DataProvider) : SuperOptions :=
  mkSuperOptions
    (if truthyString (styleSetName p) then default "omv"%string (styleSetName p)
     else "omv"%string)
    (name p) provider (decoder p) (concurrentDecoderScriptUrl p)
    (copyrightInfo p) (copyrightProvider p)
    (minZoomLevel p) (maxZoomLevel p)
    (getOptionValue E (minDataLevel p) 1%Z)
    (getOptionValue E (maxDataLevel p) 17%Z)
    (minDisplayLevel p) (maxDisplayLevel p)
    (getOptionValue E (storageLevelOffset p) (-1)%Z).

Definition tileFactoryOf (p : Params) : TileFactory :=
  match tileFactory p with
  | Some f => CustomTileFactory f
  | None => OmvTileFactory
  end.

Definition initialDecoderOptions (p : Params) : DecoderOptions :=
  mkDecoderOptions
    (isTrue (showMissingTechniques p))
    (FValue <$> filterDescr p)
    (isTrue (gatherFeatureAttributes p))
    (isTrue (createTileInfo p))
    (isTrue (gatherRoadSegments p))
    (featureModifierId p)
    (skipShortLabels p)
    (getOptionValue E (storageLevelOffset p) (-1)%Z)
    (isTrue (enableElevationOverlay p))
    None.

(** [new OmvDataSource(params)]: [inl] when [getDataProvider] throws. *)
Definition construct (p : Params) : string + DataSource :=
  match getDataProvider p with
  | inl message => inl message
  | inr provider =>
      inr (mkDataSource p (initialDecoderOptions p) true
             (match addGroundPlane p with None | Some true => true | Some false => false end)
             (getOptionValue E (maxGeometryHeight p) (MAX_BUILDING_HEIGHT E))
             (superNew E (tileFactoryOf p) (superOptions p provider)))
  end.

Definition log (c : Call) (st : State) : State :=
  mkState (infoEmitted st) (self st) (calls st ++ [c]).

Definition withOptions (f : DecoderOptions → DecoderOptions) (st : State) : State :=
  mkState (infoEmitted st)
    (mkDataSource (m_params (self st)) (f (m_decoderOptions (self st)))
       (cacheable (self st)) (groundPlane (self st)) (geometryHeight (self st))
       (base (self st)))
    (calls st).

Definition withBase (f : Base E → Base E) (st : State) : State :=
  mkState (infoEmitted st)
    (mkDataSource (m_params (self st)) (m_decoderOptions (self st))
       (cacheable (self st)) (groundPlane (self st)) (geometryHeight (self st))
       (f (base (self st))))
    (calls st).

(** [configureDecoder(styleSet, definitions, languages, options)] *)
Definition configureDecoder (styleSet definitions : option ObjRef)
    (languages : option (list string)) (options : option OptionsMap) (st : State) : State :=
  log MarkTilesDirty
    (log (DecoderConfigure styleSet definitions languages options)
       (log ClearCache st)).

(** [connect()]: [outcome] is what [super.connect()] throws, if anything;
    the result is the value the returned promise is rejected with.  In
    the [catch] block [isUnknownServiceError(error)] is evaluated first:
    when it throws, that exception leaves [connect] and [throw error] is
    never reached. *)
Definition connect (outcome : option (Error E)) (st : State) : option (Error E) * State :=
  let st1 := withBase (superConnect E outcome) (log SuperConnect st) in
  match outcome with
  | Some error =>
      match isUnknownServiceError E error with
      | inl thrown => (Some thrown, st1)
      | inr unknown =>
          if unknown && negb (infoEmitted st1) then
            let st2 := log LoggerInfo st1 in
            (Some error, mkState true (self st2) (calls st2))
          else (Some error, st1)
      end
  | None =>
      (None, configureDecoder None None None (Some (AllOptions (m_decoderOptions (self st1)))) st1)
  end.

(** [removeDataFilter()] *)
Definition removeDataFilter (st : State) : State :=
  configureDecoder None None None (Some NoFilters) st.

Definition set_dataFilter (v : option DataFilter) (o : DecoderOptions) : DecoderOptions :=
  mkDecoderOptions (o_showMissingTechniques o) (o_filterDescription o)
    (o_gatherFeatureAttributes o) (o_createTileInfo o) (o_gatherRoadSegments o)
    (o_featureModifierId o) (o_skipShortLabels o) (o_storageLevelOffset o)
    (o_enableElevationOverlay o) v.

Definition set_filterDescription (v : option FilterArg) (o : DecoderOptions) : DecoderOptions :=
  mkDecoderOptions (o_showMissingTechniques o) v
    (o_gatherFeatureAttributes o) (o_createTileInfo o) (o_gatherRoadSegments o)
    (o_featureModifierId o) (o_skipShortLabels o) (o_storageLevelOffset o)
    (o_enableElevationOverlay o) (o_dataFilter o).

Definition set_storageLevelOffset (v : Z) (o : DecoderOptions) : DecoderOptions :=
  mkDecoderOptions (o_showMissingTechniques o) (o_filterDescription o)
    (o_gatherFeatureAttributes o) (o_createTileInfo o) (o_gatherRoadSegments o)
    (o_featureModifierId o) (o_skipShortLabels o) v
    (o_enableElevationOverlay o) (o_dataFilter o).

Definition set_enableElevationOverlay (v : bool) (o : DecoderOptions) : DecoderOptions :=
  mkDecoderOptions (o_showMissingTechniques o) (o_filterDescription o)
    (o_gatherFeatureAttributes o) (o_createTileInfo o) (o_gatherRoadSegments o)
    (o_featureModifierId o) (o_skipShortLabels o) (o_storageLevelOffset o)
    v (o_dataFilter o).

(** [setDataFilter(filterDescription)] *)
Definition setDataFilter (f : FilterArg) (st : State) : State :=
  if isJsonExpr E f || isExpr E f then
    configureDecoder None None None (Some (DataFilterOption f))
      (withOptions (set_dataFilter (Some (if isExpr E f then ToJSON f else AsGiven f))) st)
  else
    configureDecoder None None None (Some (FilterDescriptionOption f))
      (withOptions (set_filterDescription
                      (match f with FNull => None | _ => Some f end)) st).

(** [shouldPreloadTiles()] *)
Definition shouldPreloadTiles (st : State) : bool := true.

(** [setLanguages(languages)] *)
Definition setLanguages (languages : option (list string)) (st : State) : State :=
  match languages with
  | Some _ => configureDecoder None None languages None st
  | None => st
  end.

(** [get storageLevelOffset] *)
Definition getStorageLevelOffset (st : State) : Z :=
  superGetStorageLevelOffset E (base (self st)).

(** [set storageLevelOffset(levelOffset)] *)
Definition setStorageLevelOffset (levelOffset : Z) (st : State) : State :=
  let st1 := withBase (superSetStorageLevelOffset E levelOffset) st in
  let st2 := withOptions (set_storageLevelOffset (getStorageLevelOffset st1)) st1 in
  configureDecoder None None None
    (Some (StorageLevelOffsetOption (getStorageLevelOffset st2))) st2.

(** [setEnableElevationOverlay(enable)] *)
Definition setEnableElevationOverlay (enable : bool) (st : State) : State :=
  if negb (Bool.eqb (o_enableElevationOverlay (m_decoderOptions (self st))) enable) then
    configureDecoder None None None (Some (ElevationOverlayOption enable))
      (withOptions (set_enableElevationOverlay enable) st)
  else st.

(** The public operations, for running sequences of them. *)
Inductive Op :=
  | Connect (outcome : option (Error E))
  | RemoveDataFilter
  | SetDataFilter (f : FilterArg)
  | SetLanguages (languages : option (list string))
  | SetStorageLevelOffset (levelOffset : Z)
  | SetEnableElevationOverlay (enable : bool).

Definition step (op : Op) (st : State) : State :=
  match op with
  | Connect outcome => (connect outcome st).2
  | RemoveDataFilter => removeDataFilter st
  | SetDataFilter f => setDataFilter f st
  | SetLanguages l => setLanguages l st
  | SetStorageLevelOffset z => setStorageLevelOffset z st
  | SetEnableElevationOverlay b => setEnableElevationOverlay b st
  end.

Definition run (ops : list Op) (st : State) : State := foldl (λ st op, step op st) st ops.

End DataSource.

Arguments m_params {E} _.
Arguments m_decoderOptions {E} _.
Arguments cacheable {E} _.
Arguments groundPlane {E} _.
Arguments geometryHeight {E} _.
Arguments base {E} _.
Arguments mkDataSource {E} _ _ _ _ _ _.
Arguments infoEmitted {E} _.
Arguments self {E} _.
Arguments calls {E} _.
Arguments mkState {E} _ _ _.
Arguments Connect {E} _.
Arguments RemoveDataFilter {E}.
Arguments SetDataFilter {E} _.
Arguments SetLanguages {E} _.
Arguments SetStorageLevelOffset {E} _.
Arguments SetEnableElevationOverlay {E} _.

(** Among the calls written in OmvDataSource.ts, each decoder
    configuration stands between a cache clearing and a dirty-marking.
    The entry [SuperConnect] is passed over: the calls of the base class
    are not in the record. *)
Fixpoint bracketed (cs : list Call) : bool :=
  match cs with
  | [] => true
  | ClearCache :: DecoderConfigure _ _ _ _ :: MarkTilesDirty :: rest => bracketed rest
  | SuperConnect :: rest | LoggerInfo :: rest => bracketed rest
  | _ => false
  end.

(** How often the hint about the missing decoder service was logged. *)
Definition infoCount (cs : list Call) : nat :=
  length (List.filter isLoggerInfo cs).




(** Thrown values of the concrete environment: the error of a missing
    decoder service, another error, a value without a message (such as
    [undefined]), and the [TypeError] the test throws on such a value. *)
Inductive SampleError := MissingService | OtherFailure | NoMessage | TestTypeError.

(** A concrete environment: the base class keeps the storage level offset
    it is given and [super.connect()] does not change it,
    [getOptionValue] returns its first defined argument, and a value is a
    filter description, a JSON expression or an [Expr] object according
    to its number modulo 3. *)
Definition sampleEnv : Env :=
  mkEnv Z SampleError (λ v d, default d v) 800%Z
        (λ _ o, so_storageLevelOffset o) (λ b, b) (λ z _, z)
        (λ _ b, b)
        (λ e, match e with
              | MissingService => inr true
              | OtherFailure | TestTypeError => inr false
              | NoMessage => inl TestTypeError
              end)
        (λ f, match f with FValue v => Nat.eqb (v mod 3) 1 | FNull => false end)
        (λ f, match f with FValue v => Nat.eqb (v mod 3) 2 | FNull => false end).

(** The error of a missing decoder service in [sampleEnv]. *)
Definition unknownService : Error sampleEnv := MissingService.

(** Parameters naming a tile service, and the state right after a
    successful construction with them. *)
Definition sampleParams : Params :=
  mkParams None None None None None None None None (Some 2%Z) None None None None None
           (Some true) None None (Some 7) None None None None None None None None
           (Some "https://tiles.example/omv"%string).

Definition constructed (E : Env) (p : Params) : option (State E) :=
  match construct E p with
  | inr ds => Some (mkState false ds [])
  | inl _ => None
  end.

End Omv.

(** ** Properties *)

(** *** Classification of techniques *)

(** C6: a technique without a declared kind is classified by its
    structural class alone (fill: Area; line, solid line, segments,
    extruded line: Line; extruded polygon: Building; poi, line marker,
    text: Label; anything else: All); the derived kind is written back
    into the technique, and a further call on the technique as written
    returns the same kind and changes nothing. *)
Theorem compileGeometryKind_default_memoized (t : Technique) (h : Heap) :
  kind t = None →
  ∃ k t',
    compileGeometryKind t h = (RKind k, t', h)
    ∧ kind t' = Some (KSingle k)
    ∧ tclass t' = tclass t
    ∧ (isFillTechnique t = true → k = Area)
    ∧ (isLineTechnique t || isSolidLineTechnique t
       || isSegmentsTechnique t || isExtrudedLineTechnique t = true → k = Line)
    ∧ (isExtrudedPolygonTechnique t = true → k = Building)
    ∧ (isPoiTechnique t || isLineMarkerTechnique t || isTextTechnique t = true → k = Label)
    ∧ (isFillTechnique t || isLineTechnique t || isSolidLineTechnique t
     || isSegmentsTechnique t || isExtrudedLineTechnique t
     || isExtrudedPolygonTechnique t
     || isPoiTechnique t || isLineMarkerTechnique t || isTextTechnique t = false →
     k = All)
    ∧ ∀ h', compileGeometryKind t' h' = (RKind k, t', h').
Proof.
  intros Hk.
  exists (defaultGeometryKind t), (mkTechnique (tclass t) (Some (KSingle (defaultGeometryKind t)))).
  unfold compileGeometryKind. rewrite Hk. cbn.
  repeat split; try (destruct t as [[] ?]; cbn; intros; done).
Qed.

Lemma compileGeometryKind_default_memoized_witness :
  ∃ k t',
    compileGeometryKind (mkTechnique SegmentsT None) emptyHeap = (RKind k, t', emptyHeap)
    ∧ k = Line
    ∧ compileGeometryKind t' emptyHeap = (RKind Line, t', emptyHeap).
Proof.
  destruct (compileGeometryKind_default_memoized (mkTechnique SegmentsT None) emptyHeap eq_refl)
    as (k & t' & Hc & _ & _ & _ & Hline & _ & _ & _ & Hagain).
  exists k, t'. rewrite <- (Hline eq_refl). auto.
Defined.

Section Properties.

Variable effect : Call → World → World.

(** The methods are run by their equations below, not unfolded by [cbn]. *)
#[local] Arguments assignInto : simpl never.
#[local] Arguments prepareAvailableGeometryKinds : simpl never.
#[local] Arguments setDecodedTile : simpl never.
#[local] Arguments setGeometryKinds : simpl never.
#[local] Arguments prepareForRender : simpl never.
#[local] Arguments finish : simpl never.
#[local] Arguments recordStatistics : simpl never.
#[local] Arguments beginCycle : simpl never.

Lemma finish_run (s : Sys) :
  finish effect s =
  (tt, mkSys (mkLoader None true (m_availableGeometryKinds (loader s))
                (m_enabledKinds (loader s)) (m_disabledKinds (loader s))
                (m_priority (loader s)))
             (heap s)
             (effect RemoveDecodedTile (effect LoadingFinished (world s)))
             (trace s ++ [LoadingFinished; RemoveDecodedTile])).
Proof.
  unfold finish, bind, call, putLoader. cbn. by rewrite <- app_assoc.
Qed.

Lemma callSeq_run (cs : list Call) (s : Sys) :
  callSeq effect cs s =
  (tt, mkSys (loader s) (heap s) (fold_left (λ w c, effect c w) cs (world s))
             (trace s ++ cs)).
Proof.
  revert s. induction cs as [| c rest IH]; intros s; cbn.
  - rewrite app_nil_r. by destruct s.
  - unfold bind, call. rewrite IH. cbn. by rewrite <- app_assoc.
Qed.

Lemma callsSince_app (s s' : Sys) (cs : list Call) :
  trace s' = trace s ++ cs → callsSince s s' = cs.
Proof. intros H. unfold callsSince. rewrite H. apply drop_app_length. Qed.

(** *** The finished controller *)

(** C7: on a finished controller [update] returns at once: the
    controller, the store, the tile and the record of outgoing calls
    (queue submissions among them) are what they were. *)
Theorem update_finished_noop (s : Sys) (enabledKinds disabledKinds : option loc) :
  isFinished s = true →
  update effect enabledKinds disabledKinds s = (tt, s).
Proof.
  intros Hf. unfold update, bind, getSys. by rewrite Hf.
Qed.

(** *** The build action without a payload *)

(** C8: when the queued action runs while the controller holds no
    decoded payload it finishes at once: the controller ends finished,
    the tile is notified ([loadingFinished], [removeDecodedTile]) and
    these are the only outgoing calls, so nothing of the geometry
    creator is invoked.  The action is a total function: there is no
    failure to raise. *)
Theorem prepare_without_payload_finishes (s : Sys) (enabledKinds disabledKinds : option loc) :
  m_decodedTile (loader s) = None →
  let s' := (prepare effect enabledKinds disabledKinds s).2 in
  isFinished s' = true
  ∧ m_decodedTile (loader s') = None
  ∧ callsSince s s' = [LoadingFinished; RemoveDecodedTile]
  ∧ forallb (λ c, negb (isGeometryCreation c)) (callsSince s s') = true.
Proof.
  intros Hd s'.
  assert (Hs' : s' = (finish effect s).2).
  { subst s'. unfold prepare, bind, getLoader. by rewrite Hd. }
  rewrite Hs', finish_run. cbn.
  assert (Hc : callsSince s
            (mkSys (mkLoader None true (m_availableGeometryKinds (loader s))
                      (m_enabledKinds (loader s)) (m_disabledKinds (loader s))
                      (m_priority (loader s)))
               (heap s) (effect RemoveDecodedTile (effect LoadingFinished (world s)))
               (trace s ++ [LoadingFinished; RemoveDecodedTile]))
            = [LoadingFinished; RemoveDecodedTile]) by by apply callsSince_app.
  rewrite Hc. done.
Qed.

(** *** Discarding an invisible tile *)

Lemma discardNeedlessTile_invisible (s : Sys) :
  isVisible (world s) = false →
  ∃ s' note,
    discardNeedlessTile effect s = (true, s')
    ∧ isFinished s' = true
    ∧ m_decodedTile (loader s') = None
    ∧ trace s' = trace s ++ DisposeTile :: note ++ [LoadingFinished; RemoveDecodedTile]
    ∧ (note = [] ∨ note = [StatsAddMessage DiscardedInvisibleMsg]).
Proof.
  intros Hv.
  unfold discardNeedlessTile, finish, bind, getWorld, call, ret, putLoader.
  rewrite Hv. cbn.
  destruct (statsEnabled (effect DisposeTile (world s))); cbn.
  - eexists _, [StatsAddMessage DiscardedInvisibleMsg].
    repeat split; [| by right]. cbn. by rewrite <- !app_assoc.
  - eexists _, []. repeat split; [| by left]. cbn. by rewrite <- !app_assoc.
Qed.

(** C5: [update] on an unfinished controller whose tile is not visible
    finishes the controller, calls [disposeTile] of the visible-tile set
    exactly once and submits nothing to the queue. *)
Theorem update_invisible_tile_discards (s : Sys) (enabledKinds disabledKinds : option loc) :
  isFinished s = false →
  isVisible (world s) = false →
  let s' := (update effect enabledKinds disabledKinds s).2 in
  isFinished s' = true
  ∧ count_occ Call_eq_dec (callsSince s s') DisposeTile = 1
  ∧ forallb (λ c, negb (isQueueAdd c)) (callsSince s s') = true.
Proof.
  intros Hf Hv s'.
  destruct (discardNeedlessTile_invisible s Hv) as (s1 & note & Hd & Hfin & _ & Htr & Hnote).
  assert (Hs' : s' = s1).
  { subst s'. unfold update, bind, getSys, ret. rewrite Hf, Hd. done. }
  rewrite Hs'. split; [done |].
  rewrite (callsSince_app s s1 _ Htr).
  destruct Hnote as [-> | ->]; cbn; split; try done;
    repeat (destruct (Call_eq_dec _ _); try done).
Qed.

(** *** Reset *)

Lemma clearIfDefined_data (o : option loc) (h : Heap) (r : loc) :
  JSSet.data (clearIfDefined o h) r
  = if bool_decide (o = Some r) then ∅ else JSSet.data h r.
Proof.
  destruct o as [l |]; cbn; [| done].
  unfold JSSet.clear, JSSet.data, JSSet.obj, JSSet.store. cbn.
  case_bool_decide as Hl.
  - injection Hl as ->. by rewrite lookup_insert_eq.
  - rewrite lookup_insert_ne; [done | congruence].
Qed.

Lemma clearIfDefined_allocated (o : option loc) (h : Heap) (r : loc) :
  o = Some r ∨ is_Some (kindSets h !! r) →
  is_Some (kindSets (clearIfDefined o h) !! r).
Proof.
  destruct o as [l |]; cbn.
  - intros H. unfold JSSet.clear, JSSet.store. cbn.
    destruct (decide (l = r)) as [-> | Hne].
    + rewrite lookup_insert_eq. eauto.
    + rewrite lookup_insert_ne by done. destruct H as [H | H]; [congruence | done].
  - intros [H | H]; [done | done].
Qed.

Lemma reset_run (s : Sys) :
  reset s =
  (tt, mkSys (mkLoader None false (m_availableGeometryKinds (loader s))
                (m_enabledKinds (loader s)) (m_disabledKinds (loader s))
                (m_priority (loader s)))
             (clearIfDefined (m_disabledKinds (loader s))
                (clearIfDefined (m_enabledKinds (loader s))
                   (clearIfDefined (m_availableGeometryKinds (loader s)) (heap s))))
             (world s) (trace s)).
Proof. done. Qed.

Lemma reset_clears (s : Sys) (r : loc) :
  m_availableGeometryKinds (loader s) = Some r
  ∨ m_enabledKinds (loader s) = Some r
  ∨ m_disabledKinds (loader s) = Some r →
  is_Some (kindSets (heap (reset s).2) !! r) ∧ JSSet.size (heap (reset s).2) r = 0.
Proof.
  intros Hr. rewrite reset_run. cbn. split.
  - destruct Hr as [Hr | [Hr | Hr]].
    + do 2 (apply clearIfDefined_allocated; right).
      apply clearIfDefined_allocated. by left.
    + apply clearIfDefined_allocated; right.
      apply clearIfDefined_allocated. by left.
    + apply clearIfDefined_allocated. by left.
  - unfold JSSet.size. rewrite !clearIfDefined_data.
    repeat case_bool_decide; try apply size_empty.
    destruct Hr as [Hr | [Hr | Hr]]; congruence.
Qed.

(** C10: after [reset()] the controller is not finished (whatever it
    was before) and holds no payload; the three kind-set fields still
    name the objects they named before, and each of those objects is
    still allocated and has size 0: the sets are emptied in place, so a
    reference read earlier from [availableGeometryKinds] sees an empty
    set afterwards. *)
Theorem reset_empties_sets_in_place (s : Sys) :
  let s' := (reset s).2 in
  isFinished s' = false
  ∧ m_decodedTile (loader s') = None
  ∧ availableGeometryKinds s' = availableGeometryKinds s
  ∧ m_enabledKinds (loader s') = m_enabledKinds (loader s)
  ∧ m_disabledKinds (loader s') = m_disabledKinds (loader s)
  ∧ ∀ r : loc,
      availableGeometryKinds s = Some r
      ∨ m_enabledKinds (loader s) = Some r
      ∨ m_disabledKinds (loader s) = Some r →
      is_Some (kindSets (heap s') !! r) ∧ JSSet.size (heap s') r = 0.
Proof.
  intros s'. repeat split; try done; subst s'; by apply reset_clears.
Qed.

(** *** The stored kind configuration *)

Lemma assign_data (target source : loc) (h : Heap) (r : loc) :
  JSSet.data (JSSet.assign target source h).2 r = JSSet.data h r.
Proof.
  unfold JSSet.assign, JSSet.data, JSSet.obj, JSSet.store. cbn.
  destruct (decide (target = r)) as [-> | Hne].
  - by rewrite lookup_insert_eq.
  - by rewrite lookup_insert_ne.
Qed.

Lemma new_data (elements : list Value) (h : Heap) (r : loc) :
  JSSet.data (JSSet.new elements h).2 r
  = if decide (nextLoc h = r) then list_to_set elements else JSSet.data h r.
Proof.
  unfold JSSet.new, JSSet.data, JSSet.obj. cbn.
  destruct (decide (nextLoc h = r)) as [-> | Hne].
  - by rewrite lookup_insert_eq.
  - by rewrite lookup_insert_ne.
Qed.

Lemma assignInto_result (stored : option loc) (supplied : loc) (h : Heap) :
  (assignInto stored supplied h).1 = default (nextLoc h) stored.
Proof. by destruct stored. Qed.

Lemma assignInto_data (stored : option loc) (supplied : loc) (h : Heap) (r : loc) :
  JSSet.data (assignInto stored supplied h).2 r
  = if decide (stored = None ∧ nextLoc h = r) then ∅ else JSSet.data h r.
Proof.
  destruct stored as [t |]; unfold assignInto.
  - rewrite (assign_data t supplied h r). by case_decide as Hc; [destruct Hc |].
  - destruct (JSSet.new [] h) as [t h'] eqn:Hnew.
    assert (Ht : t = nextLoc h) by (by injection Hnew as <- _).
    assert (Hh' : h' = (JSSet.new [] h).2) by (by rewrite Hnew).
    rewrite (assign_data t supplied h' r), Hh', new_data.
    destruct (decide (nextLoc h = r)); case_decide as Hc; try done.
    * destruct Hc. by split.
    * by destruct Hc.
Qed.

Lemma assignInto_gains_nothing (stored : option loc) (supplied : loc) (h : Heap)
    (r : loc) (v : Value) :
  v ∈ JSSet.data (assignInto stored supplied h).2 r → v ∈ JSSet.data h r.
Proof. rewrite assignInto_data. case_decide; set_solver. Qed.

Lemma setGeometryKinds_run (s : Sys) (enabledKinds disabledKinds : option loc) :
  let h1 := match enabledKinds with
            | Some e => (assignInto (m_enabledKinds (loader s)) e (heap s)).2
            | None => heap s
            end in
  let en := match enabledKinds with
            | Some e => Some (default (nextLoc (heap s)) (m_enabledKinds (loader s)))
            | None => m_enabledKinds (loader s)
            end in
  let h2 := match disabledKinds with
            | Some d => (assignInto (m_disabledKinds (loader s)) d h1).2
            | None => h1
            end in
  let dis := match disabledKinds with
             | Some d => Some (default (nextLoc h1) (m_disabledKinds (loader s)))
             | None => m_disabledKinds (loader s)
             end in
  setGeometryKinds enabledKinds disabledKinds s =
  (tt, mkSys (mkLoader (m_decodedTile (loader s)) (m_isFinished (loader s))
                (m_availableGeometryKinds (loader s)) en dis (m_priority (loader s)))
             h2 (world s) (trace s)).
Proof.
  destruct s as [[dt fin av en0 dis0 pr] h w tr].
  unfold setGeometryKinds, bind, ret, getLoader, onHeap, putLoader. cbn.
  destruct enabledKinds as [e |]; cbn.
  - pose proof (assignInto_result en0 e h) as He.
    destruct (assignInto en0 e h) as [r1 h1] eqn:E1. cbn in *. subst r1.
    destruct disabledKinds as [d |]; cbn; [| done].
    pose proof (assignInto_result dis0 d h1) as Hd.
    destruct (assignInto dis0 d h1) as [r2 h2]. cbn in *. by subst r2.
  - destruct disabledKinds as [d |]; cbn; [| done].
    pose proof (assignInto_result dis0 d h) as Hd.
    destruct (assignInto dis0 d h) as [r2 h2]. cbn in *. by subst r2.
Qed.

Lemma setGeometryKinds_gains_nothing
    (s : Sys) (enabledKinds disabledKinds : option loc) (r : loc) (v : Value) :
  v ∈ JSSet.data (heap (setGeometryKinds enabledKinds disabledKinds s).2) r →
  v ∈ JSSet.data (heap s) r.
Proof.
  rewrite setGeometryKinds_run. cbn. intros Hv.
  destruct disabledKinds as [d |]; [apply assignInto_gains_nothing in Hv |];
    (destruct enabledKinds as [e |]; [by apply assignInto_gains_nothing in Hv | done]).
Qed.

(** C2 (what the code does): [setGeometryKinds] adds no element to any
    set object.  The stored set on each axis is the object stored
    before, or a newly constructed one when none was stored, and the
    newly constructed one is empty: [Object.assign] copies own
    enumerable properties, which the elements of a set are not.  The
    kinds supplied by the caller never reach the stored sets. *)
Theorem setGeometryKinds_copies_no_elements
    (s : Sys) (enabledKinds disabledKinds : option loc) :
  let s' := (setGeometryKinds enabledKinds disabledKinds s).2 in
  (∀ (r : loc) (v : Value), v ∈ JSSet.data (heap s') r → v ∈ JSSet.data (heap s) r)
  ∧ (∀ e, enabledKinds = Some e → m_enabledKinds (loader s) = None →
       ∃ r, m_enabledKinds (loader s') = Some r ∧ JSSet.data (heap s') r = ∅)
  ∧ (∀ d, disabledKinds = Some d → m_disabledKinds (loader s) = None →
       ∃ r, m_disabledKinds (loader s') = Some r ∧ JSSet.data (heap s') r = ∅).
Proof.
  intros s'. split; [intros r v; apply setGeometryKinds_gains_nothing |].
  subst s'. rewrite setGeometryKinds_run. cbn. split.
  - intros e -> Hnone. rewrite Hnone. cbn. eexists; split; [done |].
    apply set_eq. intros v. split; [| set_solver].
    intros Hv.
    assert (Hin : v ∈ JSSet.data (assignInto None e (heap s)).2 (nextLoc (heap s))).
    { destruct disabledKinds as [d |]; [by apply assignInto_gains_nothing in Hv | done]. }
    rewrite assignInto_data in Hin. by rewrite decide_True in Hin.
  - intros d -> Hnone. rewrite Hnone. cbn. eexists; split; [done |].
    rewrite assignInto_data. by rewrite decide_True.
Qed.

(** *** Comparison of kind configurations *)

Lemma kindsOnly_has (h : Heap) (n r : loc) :
  kindsOnly h (Some n) = true → JSSet.has h n (VRef r) = false.
Proof.
  unfold kindsOnly, JSSet.has. intros Hall.
  apply bool_decide_eq_false. intros Hin.
  apply elem_of_elements in Hin.
  rewrite forallb_forall in Hall.
  apply list_elem_of_In, Hall in Hin. done.
Qed.

Lemma axisReturnsFalse_kinds (h : Heap) (supplied stored : option loc) :
  kindsOnly h supplied = true → axisReturnsFalse h supplied stored = true.
Proof.
  intros Hk. destruct supplied as [n |], stored as [r |]; cbn; try done.
  by rewrite kindsOnly_has.
Qed.

Lemma distinctNonEmpty_flags (h : Heap) (stored supplied : option loc) :
  distinctNonEmpty h stored supplied = true →
  sameRef stored supplied = false
  ∧ undefinedOrEmpty h stored && undefinedOrEmpty h supplied = false.
Proof.
  destruct stored as [r |], supplied as [n |]; cbn; try done.
  intros H. repeat (apply andb_prop in H as [H ?]).
  apply negb_true_iff in H. split; [done |].
  apply andb_false_iff. left. by apply negb_true_iff.
Qed.

(** The last comparison of [compareGeometryKinds], taken by itself: in a
    state where an axis holds two non-empty set objects that are not the
    same object, the method answers [false] whatever the sets contain,
    because it asks [has] whether the stored set object is itself an
    element of the supplied set, which a set of kinds never satisfies.
    Such a state has to be written down by hand: the stored sets of a
    controller that is only used through its methods are empty
    ([stored_kind_sets_stay_empty]). *)
Lemma compareGeometryKinds_rejects_distinct_sets
    (c : Loader) (h : Heap) (enabledKinds disabledKinds : option loc) :
  kindsOnly h enabledKinds = true →
  kindsOnly h disabledKinds = true →
  distinctNonEmpty h (m_enabledKinds c) enabledKinds
  || distinctNonEmpty h (m_disabledKinds c) disabledKinds = true →
  compareGeometryKinds c h enabledKinds disabledKinds = false.
Proof.
  intros Hke Hkd Haxis. unfold compareGeometryKinds.
  rewrite (axisReturnsFalse_kinds h enabledKinds (m_enabledKinds c) Hke).
  rewrite (axisReturnsFalse_kinds h disabledKinds (m_disabledKinds c) Hkd).
  apply orb_prop in Haxis as [Ha | Ha];
    apply distinctNonEmpty_flags in Ha as [Hsame Hempty];
    rewrite Hsame, Hempty; cbn.
  - by rewrite andb_false_r.
  - rewrite !andb_false_r. cbn. by destruct (negb _ && true).
Qed.

(** *** Running [update] *)

Lemma discardNeedlessTile_keeps (s : Sys) :
  isVisible (world s) = true → disposed (world s) = false →
  discardNeedlessTile effect s = (false, s).
Proof.
  intros Hv Hd. unfold discardNeedlessTile, bind, getWorld, ret. by rewrite Hv, Hd.
Qed.

Lemma discardNeedlessTile_discards (s : Sys) :
  isVisible (world s) && negb (disposed (world s)) = false →
  ∃ s', discardNeedlessTile effect s = (true, s')
        ∧ m_isFinished (loader s') = true ∧ m_decodedTile (loader s') = None.
Proof.
  intros Hw.
  unfold discardNeedlessTile, finish, bind, getWorld, call, ret, putLoader.
  destruct (isVisible (world s)); cbn in *.
  - apply negb_false_iff in Hw. rewrite Hw.
    destruct (statsEnabled (world s)); cbn; eauto.
  - destruct (statsEnabled (effect DisposeTile (world s))); cbn; eauto.
Qed.

Lemma setDecodedTile_run (s : Sys) (decoded : option loc) :
  ∃ h' av,
    setDecodedTile decoded s =
    (decoded, mkSys (mkLoader decoded (m_isFinished (loader s)) av
                       (m_enabledKinds (loader s)) (m_disabledKinds (loader s))
                       (m_priority (loader s)))
                    h' (world s) (trace s)).
Proof.
  unfold setDecodedTile, bind, ret, putLoader, onHeap.
  destruct decoded as [p |]; cbn; [| by eexists _, _].
  destruct (prepareAvailableGeometryKinds p (heap s)) as [found h']. cbn.
  by eexists _, _.
Qed.

Lemma beginCycle_idle (s : Sys) (enabledKinds disabledKinds : option loc) :
  negb (geometryCreationPending s) && bool_decide (decodedTile (world s) ≠ None) = false →
  beginCycle effect enabledKinds disabledKinds s = (tt, s).
Proof.
  intros H. unfold beginCycle, bind, getSys, ret. by rewrite H.
Qed.

(** A cycle that starts: the techniques are processed, the payload the
    tile shows afterwards is captured, and one task is submitted; if the
    tile shows no payload any more the controller finishes instead. *)
Lemma beginCycle_starts (s : Sys) (enabledKinds disabledKinds : option loc) :
  geometryCreationPending s = false →
  decodedTile (world s) ≠ None →
  ∃ s', beginCycle effect enabledKinds disabledKinds s = (tt, s')
    ∧ match decodedTile (effect (ProcessTechniques enabledKinds disabledKinds) (world s)) with
      | Some p =>
          m_decodedTile (loader s') = Some p
          ∧ m_isFinished (loader s') = m_isFinished (loader s)
          ∧ trace s' = trace s ++ [ProcessTechniques enabledKinds disabledKinds;
                                    QueueAdd (mkTask enabledKinds disabledKinds)]
      | None =>
          m_decodedTile (loader s') = None
          ∧ m_isFinished (loader s') = true
          ∧ trace s' = trace s ++ [ProcessTechniques enabledKinds disabledKinds;
                                    LoadingFinished; RemoveDecodedTile]
      end.
Proof.
  intros Hp Hd. unfold beginCycle, bind, getSys, getWorld.
  rewrite Hp, bool_decide_eq_true_2 by done. cbn.
  pose proof (setGeometryKinds_run
    (mkSys (loader s) (heap s)
       (effect (ProcessTechniques enabledKinds disabledKinds) (world s))
       (trace s ++ [ProcessTechniques enabledKinds disabledKinds]))
    enabledKinds disabledKinds) as Hset.
  cbn in Hset. unfold call. cbn. rewrite Hset. clear Hset. cbn.
  match goal with
  | |- context [setDecodedTile ?dt ?st] =>
      destruct (setDecodedTile_run st dt) as (h' & av & Hsd); rewrite Hsd; clear Hsd
  end.
  cbn.
  destruct (decodedTile (effect (ProcessTechniques enabledKinds disabledKinds) (world s)))
    as [p |] eqn:Hdt.
  - unfold prepareForRender, bind, getLoader, call. cbn.
    eexists. split; [done |]. cbn. by rewrite <- app_assoc.
  - unfold prepareForRender, bind, getLoader. cbn. rewrite finish_run. cbn.
    eexists. split; [done |]. cbn. by rewrite <- app_assoc.
Qed.

(** [update] on a live tile that has data: the comparison decides
    whether to reset, then a cycle may begin. *)
Lemma update_live (s : Sys) (enabledKinds disabledKinds : option loc) :
  isFinished s = false →
  isVisible (world s) = true → disposed (world s) = false →
  tileHasNoData (world s) = false →
  update effect enabledKinds disabledKinds s =
  beginCycle effect enabledKinds disabledKinds
    (if geometryCreationPending s
        && negb (compareGeometryKinds (loader s) (heap s) enabledKinds disabledKinds)
     then (reset s).2 else s).
Proof.
  intros Hf Hv Hd Hn. unfold update. unfold bind at 1. unfold getSys at 1.
  rewrite Hf. unfold bind at 1. rewrite (discardNeedlessTile_keeps s Hv Hd).
  unfold bind at 1. unfold getWorld. rewrite Hn.
  unfold bind at 1. unfold getSys at 1. unfold bind at 1.
  by destruct (geometryCreationPending s && _).
Qed.

Lemma update_no_data (s : Sys) (enabledKinds disabledKinds : option loc) :
  isFinished s = false →
  isVisible (world s) = true → disposed (world s) = false →
  tileHasNoData (world s) = true →
  update effect enabledKinds disabledKinds s = finish effect s.
Proof.
  intros Hf Hv Hd Hn. unfold update. unfold bind at 1. unfold getSys at 1.
  rewrite Hf. unfold bind at 1. rewrite (discardNeedlessTile_keeps s Hv Hd).
  unfold bind at 1. unfold getWorld. by rewrite Hn.
Qed.



(** *** The lifecycle invariant *)







(** *** A changed kind configuration *)




(** An idle controller on a live tile with a payload starts a cycle and
    submits exactly one task. *)
Lemma update_idle_submits (s : Sys) (enabledKinds disabledKinds : option loc) (p : loc) :
  isFinished s = false → m_decodedTile (loader s) = None →
  isVisible (world s) = true → disposed (world s) = false →
  decodedTile (world s) ≠ None →
  decodedTile (effect (ProcessTechniques enabledKinds disabledKinds) (world s)) = Some p →
  let s' := (update effect enabledKinds disabledKinds s).2 in
  callsSince s s' = [ProcessTechniques enabledKinds disabledKinds;
                     QueueAdd (mkTask enabledKinds disabledKinds)]
  ∧ m_decodedTile (loader s') = Some p
  ∧ isFinished s' = false.
Proof.
  intros Hf Hdt Hv Hd Hw Hp s'. subst s'.
  assert (Hpend : geometryCreationPending s = false).
  { unfold geometryCreationPending. rewrite Hdt. by rewrite andb_false_r. }
  assert (Hn : tileHasNoData (world s) = false).
  { unfold tileHasNoData. rewrite bool_decide_eq_false_2 by done. by rewrite andb_false_r. }
  rewrite update_live by done. rewrite Hpend. cbn.
  destruct (beginCycle_starts s enabledKinds disabledKinds Hpend Hw) as (s' & -> & Hpost).
  rewrite Hp in Hpost. destruct Hpost as (Hd' & Hf' & Htr). cbn.
  repeat split; [by apply callsSince_app | done |].
  unfold isFinished in *. congruence.
Qed.


End Properties.

(** In a state written down by hand whose stored enabled set holds a
    kind: the stored and the supplied set hold the same kind, so each
    contains every element of the other, and the comparison still
    reports a difference. *)
Lemma compareGeometryKinds_rejects_distinct_sets_witness :
  SpecWords.kindsEquivalent Scenario.store0 (Some 1) None (Some 2) None = true
  ∧ compareGeometryKinds Scenario.storingLine Scenario.store0 (Some 2) None = false.
Proof.
  split; [by vm_compute |].
  apply (compareGeometryKinds_rejects_distinct_sets
           Scenario.storingLine Scenario.store0 (Some 2) None);
    by vm_compute.
Defined.

(** The caller supplies [{Line}]; the set the loader stores is empty. *)
Lemma setGeometryKinds_copies_no_elements_witness :
  JSSet.data Scenario.store0 1 = {[VKind Line]}
  ∧ ∃ r, m_enabledKinds (loader (setGeometryKinds (Some 1) None Scenario.fresh).2) = Some r
         ∧ JSSet.data (heap (setGeometryKinds (Some 1) None Scenario.fresh).2) r = ∅.
Proof.
  split; [by vm_compute |].
  exact (proj1 (proj2 (setGeometryKinds_copies_no_elements Scenario.fresh (Some 1) None))
           1 eq_refl eq_refl).
Defined.

(** ** The properties at concrete inputs *)

(** C3 (what the code does): a fresh controller on a visible, undisposed
    tile with a payload receives [update({Line}, undefined)] and submits
    a task; before the task runs, [update] is called again with the very
    same set object.  The second call resets the controller (the
    available-kinds set computed by the first call is emptied) and
    submits a second task. *)
Theorem update_same_kinds_submits_again :
  let s1 := Scenario.scheduled in
  let s2 := (update Scenario.quiet (Some 1) None s1).2 in
  (isVisible (world s1) = true ∧ disposed (world s1) = false
   ∧ decodedTile (world s1) = Some 0)
  ∧ callsSince Scenario.fresh s1
    = [ProcessTechniques (Some 1) None; QueueAdd (mkTask (Some 1) None)]
  ∧ geometryCreationPending s1 = true
  ∧ SpecWords.kindsEquivalent (heap s1) (Some 1) None (Some 1) None = true
  ∧ callsSince s1 s2
    = [ProcessTechniques (Some 1) None; QueueAdd (mkTask (Some 1) None)]
  ∧ ∃ r, availableGeometryKinds s1 = Some r
         ∧ JSSet.data (heap s1) r = {[VKind Line]}
         ∧ JSSet.data (heap s2) r = ∅.
Proof.
  cbv zeta. repeat split; try by vm_compute.
  exists 5. repeat split; by vm_compute.
Qed.

(** The stored enabled set after the first call is empty although the
    caller supplied [{Line}], and comparing the stored configuration with
    the same supplied object answers "changed". *)
Example scheduled_stores_empty_enabled_set :
  m_enabledKinds (loader Scenario.scheduled) = Some 4
  ∧ JSSet.data (heap Scenario.scheduled) 4 = ∅
  ∧ JSSet.data (heap Scenario.scheduled) 1 = {[VKind Line]}
  ∧ compareGeometryKinds (loader Scenario.scheduled) (heap Scenario.scheduled)
      (Some 1) None = false.
Proof. repeat split; by vm_compute. Qed.

(** With an undefined configuration the second call changes nothing. *)
Example update_undefined_kinds_twice :
  let s1 := (update Scenario.quiet None None Scenario.fresh).2 in
  callsSince Scenario.fresh s1 = [ProcessTechniques None None; QueueAdd (mkTask None None)]
  ∧ update Scenario.quiet None None s1 = (tt, s1).
Proof. cbv zeta. split; by vm_compute. Qed.



Lemma update_invisible_tile_discards_witness :
  let s := Scenario.scheduledInvisible in
  let s' := (update Scenario.quiet (Some 1) None s).2 in
  isFinished s' = true
  ∧ count_occ Call_eq_dec (callsSince s s') DisposeTile = 1
  ∧ forallb (λ c, negb (isQueueAdd c)) (callsSince s s') = true.
Proof.
  apply (update_invisible_tile_discards Scenario.quiet Scenario.scheduledInvisible
           (Some 1) None); by vm_compute.
Defined.

Lemma update_finished_noop_witness :
  update Scenario.quiet (Some 1) None Scenario.finished = (tt, Scenario.finished).
Proof.
  apply (update_finished_noop Scenario.quiet Scenario.finished (Some 1) None).
  by vm_compute.
Defined.

Lemma prepare_without_payload_finishes_witness :
  let s' := (prepare Scenario.quiet None None Scenario.fresh).2 in
  isFinished s' = true
  ∧ m_decodedTile (loader s') = None
  ∧ callsSince Scenario.fresh s' = [LoadingFinished; RemoveDecodedTile]
  ∧ forallb (λ c, negb (isGeometryCreation c)) (callsSince Scenario.fresh s') = true.
Proof.
  apply (prepare_without_payload_finishes Scenario.quiet Scenario.fresh None None).
  by vm_compute.
Defined.



(** A newly constructed controller satisfies the lifecycle invariant. *)
Example newLoader_holds_no_payload (h : Heap) (w : World) :
  finishedHoldsNoPayload (mkSys newLoader h w []).
Proof. intros H. discriminate H. Qed.

(** End to end: one line technique of unspecified kind; the first
    [update(undefined, undefined)] submits one task, and running it while
    the tile stays visible creates the geometry once and leaves the
    controller finished without a payload. *)
Example build_runs_to_completion :
  let s1 := (update Scenario.releasing None None Scenario.fresh).2 in
  let s2 := (execute Scenario.releasing (mkTask None None) s1).2 in
  callsSince Scenario.fresh s1 = [ProcessTechniques None None; QueueAdd (mkTask None None)]
  ∧ JSSet.data (heap s1) 4 = {[VKind Line]}
  ∧ callsSince s1 s2 = [TileClear; InitDecodedTile 0 None None; CreateAllGeometries 0;
                        LoadingFinished; RemoveDecodedTile; RequestUpdate]
  ∧ isFinished s2 = true
  ∧ m_decodedTile (loader s2) = None.
Proof. cbv zeta. repeat split; by vm_compute. Qed.

(** End to end: the tile becomes invisible between submission and
    execution; the action discards the tile and creates no geometry. *)
Example build_discarded_when_invisible :
  let s1 := Scenario.scheduledInvisible in
  let s2 := (execute Scenario.releasing (mkTask (Some 1) None) s1).2 in
  callsSince s1 s2 = [DisposeTile; LoadingFinished; RemoveDecodedTile]
  ∧ isExpired s1 = true
  ∧ isFinished s2 = true.
Proof. cbv zeta. repeat split; by vm_compute. Qed.

(** ** Further properties of the loader *)

(** *** Normalising and gathering kinds *)

Lemma store_lookup_ne (r l : loc) (o : SetObj) (h : Heap) :
  r ≠ l → kindSets (JSSet.store l o h) !! r = kindSets h !! r.
Proof. intros Hne. unfold JSSet.store. cbn. by rewrite lookup_insert_ne. Qed.

Lemma data_of_lookup (h h' : Heap) (r : loc) :
  kindSets h' !! r = kindSets h !! r → JSSet.data h' r = JSSet.data h r.
Proof. intros H. unfold JSSet.data, JSSet.obj. by rewrite H. Qed.

Lemma compileGeometryKind_frame (t t' : Technique) (h h' : Heap) (res : KindResult) :
  compileGeometryKind t h = (res, t', h') →
  nextLoc h ≤ nextLoc h'
  ∧ payloads h' = payloads h
  ∧ (∀ r, r < nextLoc h → kindSets h' !! r = kindSets h !! r)
  ∧ tclass t' = tclass t
  ∧ normalizedKind t' = true
  ∧ classifiedKinds h' t' = classifiedKinds h t
  ∧ (∀ found, found < nextLoc h → refersBelow (nextLoc h) found t →
       refersBelow (nextLoc h') found t')
  ∧ match res with
    | RKind k => classifiedKinds h t = {[VKind k]}
    | RSet s => JSSet.data h' s = classifiedKinds h t
    end.
Proof.
  unfold compileGeometryKind, classifiedKinds, normalizedKind, refersBelow.
  destruct t as [c [[k | ks | s] |]]; cbn; intros Heq; injection Heq as <- <- <-; cbn.
  - do 6 (split; [done |]). split; [| done]. intros found _ H. exact H.
  - unfold JSSet.data, JSSet.obj. cbn. rewrite lookup_insert_eq. cbn.
    split; [lia |]. split; [done |]. split.
    { intros r Hr. rewrite lookup_insert_ne; [done | lia]. }
    do 3 (split; [done |]). split; [| done].
    intros found Hf _ s Hs. injection Hs as <-. lia.
  - do 6 (split; [done |]). split; [| done]. intros found _ H. exact H.
  - do 6 (split; [done |]). split; [| done]. intros found _ _ s Hs. discriminate Hs.
Qed.

Lemma refersBelow_mono (b b' found : loc) (t : Technique) :
  b ≤ b' → refersBelow b found t → refersBelow b' found t.
Proof. intros Hle H s Hs. destruct (H s Hs). split; [lia | done]. Qed.

Lemma classifiedKinds_frame (h h' : Heap) (b found : loc) (t : Technique) :
  (∀ r, r < b → r ≠ found → kindSets h' !! r = kindSets h !! r) →
  refersBelow b found t →
  classifiedKinds h' t = classifiedKinds h t.
Proof.
  intros Hframe Ht. unfold classifiedKinds.
  destruct (kind t) as [[k | ks | s] |] eqn:Hk; try done.
  destruct (Ht s Hk) as [Hlt Hne]. by apply data_of_lookup, Hframe.
Qed.

(** The loop of [prepareAvailableGeometryKinds]: what it adds to the set
    under construction and what it leaves alone. *)
Lemma gatherGeometryKinds_run (found : loc) (ts : list Technique) :
  ∀ (h : Heap) (ts' : list Technique) (h' : Heap),
    found < nextLoc h →
    Forall (refersBelow (nextLoc h) found) ts →
    gatherGeometryKinds found ts h = (ts', h') →
    nextLoc h ≤ nextLoc h'
    ∧ payloads h' = payloads h
    ∧ (∀ r, r < nextLoc h → r ≠ found → kindSets h' !! r = kindSets h !! r)
    ∧ JSSet.data h' found = JSSet.data h found ∪ ⋃ (classifiedKinds h <$> ts)
    ∧ Forall2 (λ t t', tclass t' = tclass t
                       ∧ normalizedKind t' = true
                       ∧ refersBelow (nextLoc h') found t'
                       ∧ (refersBelow (nextLoc h) found t →
                          classifiedKinds h' t' = classifiedKinds h t)) ts ts'.
Proof.
  induction ts as [| t rest IH]; intros h ts' h' Hfound Hrefs Hrun; cbn in Hrun.
  - injection Hrun as <- <-. cbn. repeat split; try done. by rewrite (right_id_L ∅ (∪)).
  - destruct (compileGeometryKind t h) as [[res t1] h1] eqn:Hc.
    apply Forall_cons in Hrefs as [Hreft Hrefrest].
    destruct (compileGeometryKind_frame t t1 h h1 res Hc)
      as (Hn1 & Hp1 & Hk1 & Hcl1 & Hnorm1 & Hck1 & Href1 & Hres).
    specialize (Href1 found Hfound Hreft).
    set (h2 := match res with
               | RSet s => JSSet.addAll found s h1
               | RKind k => JSSet.add found (VKind k) h1
               end) in *.
    assert (Hn2 : nextLoc h2 = nextLoc h1) by (subst h2; by destruct res).
    assert (Hp2 : payloads h2 = payloads h1) by (subst h2; by destruct res).
    assert (Hk2 : ∀ r, r ≠ found → kindSets h2 !! r = kindSets h1 !! r).
    { intros r Hr. subst h2. destruct res; by apply store_lookup_ne. }
    assert (Hk12 : ∀ r, r < nextLoc h → r ≠ found → kindSets h2 !! r = kindSets h !! r).
    { intros r Hr Hne. rewrite Hk2 by done. by apply Hk1. }
    assert (Hd2 : JSSet.data h2 found = JSSet.data h found ∪ classifiedKinds h t).
    { assert (Hf1 : JSSet.data h1 found = JSSet.data h found)
        by (apply data_of_lookup, Hk1, Hfound).
      subst h2. destruct res as [k | s]; unfold JSSet.add, JSSet.addAll, JSSet.data at 1,
        JSSet.obj at 1, JSSet.store; cbn; rewrite lookup_insert_eq; cbn;
        rewrite Hf1, Hres; apply (comm_L (∪)). }
    destruct (gatherGeometryKinds found rest h2) as [rest' h3] eqn:Hg.
    injection Hrun as <- <-.
    assert (Hrefrest2 : Forall (refersBelow (nextLoc h2) found) rest).
    { eapply Forall_impl; [exact Hrefrest |]. intros x Hx.
      apply (refersBelow_mono (nextLoc h)); [lia | done]. }
    destruct (IH h2 rest' h3 ltac:(lia) Hrefrest2 Hg) as (Hn3 & Hp3 & Hk3 & Hd3 & Hall).
    split; [lia |]. split; [congruence |]. split.
    { intros r Hr Hne. rewrite Hk3 by (try lia; done). by apply Hk12. }
    split.
    { rewrite Hd3, Hd2. cbn.
      assert (Hmap : classifiedKinds h2 <$> rest = classifiedKinds h <$> rest).
      { apply Forall_fmap_ext. eapply Forall_impl; [exact Hrefrest |].
        intros x Hx. by apply (classifiedKinds_frame h h2 (nextLoc h) found). }
      rewrite Hmap. by rewrite (assoc_L (∪)). }
    constructor.
    + split; [done |]. split; [done |]. split.
      * apply (refersBelow_mono (nextLoc h1)); [lia | done].
      * intros _. rewrite <- Hck1.
        apply (classifiedKinds_frame h1 h3 (nextLoc h1) found); [| done].
        intros r Hr Hne. rewrite Hk3 by (try lia; done). by apply Hk2.
    + eapply Forall2_impl; [exact Hall |].
      intros x y (Hc1 & Hc2 & Hc3 & Hc4). do 3 (split; [done |]).
      intros Hx. rewrite Hc4 by (apply (refersBelow_mono (nextLoc h)); [lia | done]).
      by apply (classifiedKinds_frame h h2 (nextLoc h) found).
Qed.

Lemma kindSetsAllocated_refersBelow (h : Heap) (ts : list Technique) :
  kindSetsAllocated h ts = true →
  Forall (refersBelow (S (nextLoc h)) (nextLoc h)) ts.
Proof.
  unfold kindSetsAllocated. rewrite forallb_forall. intros H.
  apply Forall_forall. intros t Ht s Hs.
  apply list_elem_of_In, H in Ht. rewrite Hs in Ht.
  apply Nat.ltb_lt in Ht. lia.
Qed.

(** The loop without any assumption on the techniques: objects other than
    the set under construction that were allocated before are not
    touched, and every technique comes out with a normalised kind. *)
Lemma gatherGeometryKinds_frame (found : loc) (ts : list Technique) :
  ∀ (h : Heap) (ts' : list Technique) (h' : Heap),
    gatherGeometryKinds found ts h = (ts', h') →
    nextLoc h ≤ nextLoc h'
    ∧ payloads h' = payloads h
    ∧ (∀ r, r < nextLoc h → r ≠ found → kindSets h' !! r = kindSets h !! r)
    ∧ Forall2 (λ t t', tclass t' = tclass t ∧ normalizedKind t' = true) ts ts'.
Proof.
  induction ts as [| t rest IH]; intros h ts' h' Hrun; cbn in Hrun.
  - injection Hrun as <- <-. by repeat split.
  - destruct (compileGeometryKind t h) as [[res t1] h1] eqn:Hc.
    destruct (compileGeometryKind_frame t t1 h h1 res Hc)
      as (Hn1 & Hp1 & Hk1 & Hcl1 & Hnorm1 & _).
    set (h2 := match res with
               | RSet s => JSSet.addAll found s h1
               | RKind k => JSSet.add found (VKind k) h1
               end) in *.
    assert (Hn2 : nextLoc h2 = nextLoc h1) by (subst h2; by destruct res).
    assert (Hp2 : payloads h2 = payloads h1) by (subst h2; by destruct res).
    assert (Hk2 : ∀ r, r ≠ found → kindSets h2 !! r = kindSets h1 !! r).
    { intros r Hr. subst h2. destruct res; by apply store_lookup_ne. }
    destruct (gatherGeometryKinds found rest h2) as [rest' h3] eqn:Hg.
    injection Hrun as <- <-.
    destruct (IH h2 rest' h3 Hg) as (Hn3 & Hp3 & Hk3 & Hall).
    split; [lia |]. split; [congruence |]. split.
    + intros r Hr Hne. rewrite Hk3 by (try lia; done). rewrite Hk2 by done. by apply Hk1.
    + by constructor.
Qed.

Lemma Forall2_impl_Forall {A B} (P Q : A → B → Prop) (R : A → Prop)
    (l : list A) (k : list B) :
  Forall2 P l k → Forall R l → (∀ x y, R x → P x y → Q x y) → Forall2 Q l k.
Proof.
  intros HP. induction HP as [| x y l k Hxy HP IH]; intros HR Himp; [constructor |].
  apply Forall_cons in HR as [Hx HR]. constructor; [by apply Himp | by apply IH].
Qed.

Lemma prepareAvailableGeometryKinds_run (d : loc) (h : Heap) (p : DecodedTile) :
  payloads h !! d = Some p →
  ∃ ts' h',
    prepareAvailableGeometryKinds d h = (nextLoc h, h')
    ∧ payloads h' = <[d := mkDecodedTile ts']> (payloads h)
    ∧ nextLoc h < nextLoc h'
    ∧ (∀ r, r < nextLoc h → kindSets h' !! r = kindSets h !! r)
    ∧ Forall2 (λ t t', tclass t' = tclass t ∧ normalizedKind t' = true) (techniques p) ts'
    ∧ (kindSetsAllocated h (techniques p) = true →
       JSSet.data h' (nextLoc h) = ⋃ (classifiedKinds h <$> techniques p)
       ∧ kindSetsAllocated h' ts' = true
       ∧ Forall2 (λ t t', classifiedKinds h' t' = classifiedKinds h t) (techniques p) ts').
Proof.
  intros Hp. unfold prepareAvailableGeometryKinds, JSSet.new. cbn. rewrite Hp.
  set (h0 := mkHeap (<[nextLoc h := mkSetObj ∅ ∅]> (kindSets h))
                    (payloads h) (S (nextLoc h))).
  destruct (gatherGeometryKinds (nextLoc h) (techniques p) h0) as [ts' h1] eqn:Hg.
  assert (Hk0 : ∀ r, r < nextLoc h → kindSets h0 !! r = kindSets h !! r).
  { intros r Hr. subst h0. cbn. rewrite lookup_insert_ne; [done | lia]. }
  destruct (gatherGeometryKinds_frame _ _ _ _ _ Hg) as (Hn & Hpay & Hk & Hall).
  exists ts', (mkHeap (kindSets h1) (<[d := mkDecodedTile ts']> (payloads h1)) (nextLoc h1)).
  split; [done |]. cbn. split; [by rewrite Hpay |]. split; [cbn in Hn; lia |]. split.
  { intros r Hr. rewrite Hk by (cbn; lia). by apply Hk0. }
  split; [done |].
  intros Halloc. apply kindSetsAllocated_refersBelow in Halloc.
  assert (Hlt : nextLoc h < nextLoc h0) by (subst h0; cbn; lia).
  destruct (gatherGeometryKinds_run _ _ h0 ts' h1 Hlt Halloc Hg)
    as (_ & _ & _ & Hd & Hall2).
  assert (Hcl0 : Forall (λ t, classifiedKinds h0 t = classifiedKinds h t) (techniques p)).
  { eapply Forall_impl; [exact Halloc |]. intros t Ht.
    apply (classifiedKinds_frame h h0 (S (nextLoc h)) (nextLoc h)); [| done].
    intros r Hr Hne. apply Hk0. lia. }
  split; [| split].
  - unfold JSSet.data at 1, JSSet.obj. cbn. fold (JSSet.obj h1 (nextLoc h)).
    fold (JSSet.data h1 (nextLoc h)). rewrite Hd.
    assert (He : JSSet.data h0 (nextLoc h) = ∅).
    { unfold JSSet.data, JSSet.obj. subst h0. cbn. by rewrite lookup_insert_eq. }
    rewrite He, (left_id_L ∅ (∪)). f_equal. by apply Forall_fmap_ext.
  - unfold kindSetsAllocated. apply forallb_forall. intros t' Ht'.
    apply list_elem_of_In in Ht'.
    assert (Hrefs' : Forall (refersBelow (nextLoc h1) (nextLoc h)) ts').
    { eapply Forall2_Forall_r; [exact Hall2 |]. apply Forall_forall.
      intros x _ y (_ & _ & Hr & _). exact Hr. }
    rewrite Forall_forall in Hrefs'. specialize (Hrefs' t' Ht').
    cbn. destruct (kind t') as [[k | ks | s] |] eqn:Hkt; try done.
    apply Nat.ltb_lt. by destruct (Hrefs' s Hkt).
  - assert (Hboth : Forall (λ t, classifiedKinds h0 t = classifiedKinds h t
                                ∧ refersBelow (S (nextLoc h)) (nextLoc h) t) (techniques p))
      by (by apply Forall_and).
    eapply (Forall2_impl_Forall _ _ _ _ _ Hall2 Hboth).
    intros t t' [Hc0 Ha] (_ & _ & _ & Heq).
    unfold classifiedKinds at 1. cbn. fold (classifiedKinds h1 t').
    rewrite <- Hc0. by apply Heq.
Qed.

Lemma Forall2_fmap_eq {A B} (f g : A → B) (l k : list A) :
  Forall2 (λ x y, f y = g x) l k → f <$> k = g <$> l.
Proof. induction 1 as [| x y l k Hxy _ IH]; cbn; [done | by rewrite Hxy, IH]. Qed.

(** X1: the set returned by [prepareAvailableGeometryKinds] holds exactly
    the kinds of the payload's techniques: for each technique its single
    kind, the members of its array or set, or the default of its class.
    The set is a newly allocated object. *)
Theorem prepareAvailableGeometryKinds_gathers_all (d : loc) (h : Heap) (p : DecodedTile) :
  payloads h !! d = Some p →
  kindSetsAllocated h (techniques p) = true →
  (prepareAvailableGeometryKinds d h).1 = nextLoc h
  ∧ JSSet.data (prepareAvailableGeometryKinds d h).2 (nextLoc h)
    = ⋃ (classifiedKinds h <$> techniques p).
Proof.
  intros Hp Ha.
  destruct (prepareAvailableGeometryKinds_run d h p Hp) as (ts' & h' & -> & _ & _ & _ & _ & H).
  destruct (H Ha) as (Hd & _). by split.
Qed.

Lemma prepareAvailableGeometryKinds_gathers_all_witness :
  JSSet.data (prepareAvailableGeometryKinds 0 Sample.store).2 3
  = ⋃ (classifiedKinds Sample.store <$> Sample.mixed)
  ∧ ⋃ (classifiedKinds Sample.store <$> Sample.mixed)
    = {[VKind Line; VKind Area; VKind Building; VKind Label;
        VKind (OtherKind 7); VKind (OtherKind 3)]}.
Proof.
  split; [| by vm_compute].
  apply (prepareAvailableGeometryKinds_gathers_all 0 Sample.store
           (mkDecodedTile Sample.mixed)); by vm_compute.
Defined.

(** X2: the order of the techniques in the payload does not matter: two
    payloads whose technique lists are permutations of each other give
    the same available kinds. *)
Theorem prepareAvailableGeometryKinds_order_independent
    (d1 d2 : loc) (h : Heap) (p1 p2 : DecodedTile) :
  payloads h !! d1 = Some p1 →
  payloads h !! d2 = Some p2 →
  kindSetsAllocated h (techniques p1) = true →
  techniques p1 ≡ₚ techniques p2 →
  JSSet.data (prepareAvailableGeometryKinds d2 h).2 (nextLoc h)
  = JSSet.data (prepareAvailableGeometryKinds d1 h).2 (nextLoc h).
Proof.
  intros Hp1 Hp2 Ha Hperm.
  assert (Ha2 : kindSetsAllocated h (techniques p2) = true).
  { unfold kindSetsAllocated in *. rewrite forallb_forall in *.
    intros t Ht. apply Ha. by rewrite Hperm. }
  destruct (prepareAvailableGeometryKinds_run d1 h p1 Hp1)
    as (ts1 & h1 & -> & _ & _ & _ & _ & H1).
  destruct (prepareAvailableGeometryKinds_run d2 h p2 Hp2)
    as (ts2 & h2 & -> & _ & _ & _ & _ & H2).
  destruct (H1 Ha) as (Hd1 & _). destruct (H2 Ha2) as (Hd2 & _). cbn.
  rewrite Hd1, Hd2. apply leibniz_equiv. by rewrite Hperm.
Qed.

Lemma prepareAvailableGeometryKinds_order_independent_witness :
  JSSet.data (prepareAvailableGeometryKinds 2 Sample.store).2 3
  = JSSet.data (prepareAvailableGeometryKinds 0 Sample.store).2 3.
Proof.
  apply (prepareAvailableGeometryKinds_order_independent 0 2 Sample.store
           (mkDecodedTile Sample.mixed) (mkDecodedTile (reverse Sample.mixed)));
    try by vm_compute.
  symmetry. exact (reverse_Permutation Sample.mixed).
Defined.

(** X3: after [prepareAvailableGeometryKinds] every technique of the
    payload carries a normalised kind (one kind or a set, never absent,
    never a raw array); the techniques keep their number, order and
    class. *)
Theorem prepareAvailableGeometryKinds_normalises (d : loc) (h : Heap) (p : DecodedTile) :
  payloads h !! d = Some p →
  ∃ p', payloads (prepareAvailableGeometryKinds d h).2 !! d = Some p'
        ∧ Forall2 (λ t t', tclass t' = tclass t ∧ normalizedKind t' = true)
                  (techniques p) (techniques p').
Proof.
  intros Hp.
  destruct (prepareAvailableGeometryKinds_run d h p Hp)
    as (ts' & h' & -> & Hpay & _ & _ & Hall & _).
  exists (mkDecodedTile ts'). cbn. rewrite Hpay. by rewrite lookup_insert_eq.
Qed.

Lemma prepareAvailableGeometryKinds_normalises_witness :
  ∃ p', payloads (prepareAvailableGeometryKinds 0 Sample.store).2 !! 0 = Some p'
        ∧ Forall2 (λ t t', tclass t' = tclass t ∧ normalizedKind t' = true)
                  Sample.mixed (techniques p').
Proof.
  apply (prepareAvailableGeometryKinds_normalises 0 Sample.store
           (mkDecodedTile Sample.mixed)).
  by vm_compute.
Defined.

(** X4: gathering is idempotent: a second run over the payload, now
    carrying the memoised kinds, gathers the same kinds as the first. *)
Theorem prepareAvailableGeometryKinds_idempotent (d : loc) (h : Heap) (p : DecodedTile) :
  payloads h !! d = Some p →
  kindSetsAllocated h (techniques p) = true →
  let first := prepareAvailableGeometryKinds d h in
  let second := prepareAvailableGeometryKinds d first.2 in
  JSSet.data second.2 second.1 = JSSet.data first.2 first.1.
Proof.
  intros Hp Ha first second. subst second first.
  destruct (prepareAvailableGeometryKinds_run d h p Hp)
    as (ts' & h' & -> & Hpay & _ & _ & _ & H).
  destruct (H Ha) as (Hd & Ha' & Hsame). cbn [fst snd].
  assert (Hp' : payloads h' !! d = Some (mkDecodedTile ts'))
    by (rewrite Hpay; by rewrite lookup_insert_eq).
  destruct (prepareAvailableGeometryKinds_run d h' _ Hp')
    as (ts2 & h2 & -> & _ & _ & _ & _ & H').
  destruct (H' Ha') as (Hd2 & _). cbn [fst snd techniques] in *.
  rewrite Hd2, Hd. f_equal. by apply Forall2_fmap_eq.
Qed.

Lemma prepareAvailableGeometryKinds_idempotent_witness :
  let first := prepareAvailableGeometryKinds 0 Sample.store in
  let second := prepareAvailableGeometryKinds 0 first.2 in
  JSSet.data second.2 second.1 = JSSet.data first.2 first.1.
Proof.
  apply (prepareAvailableGeometryKinds_idempotent 0 Sample.store
           (mkDecodedTile Sample.mixed)); by vm_compute.
Defined.

(** X5: a raw array of kinds is converted once: [compileGeometryKind]
    allocates a set holding the array's kinds, writes it into the
    technique and returns it, without touching any existing set; every
    later call returns that same set object and allocates nothing. *)
Theorem compileGeometryKind_array_memoized
    (t : Technique) (ks : list GeometryKind) (h : Heap) :
  kind t = Some (KArray ks) →
  ∃ t' h',
    compileGeometryKind t h = (RSet (nextLoc h), t', h')
    ∧ kind t' = Some (KSet (nextLoc h))
    ∧ JSSet.data h' (nextLoc h) = list_to_set (VKind <$> ks)
    ∧ (∀ r, r < nextLoc h → kindSets h' !! r = kindSets h !! r)
    ∧ ∀ h'', compileGeometryKind t' h'' = (RSet (nextLoc h), t', h'').
Proof.
  intros Hk. unfold compileGeometryKind. rewrite Hk. cbn.
  eexists _, _. split; [done |]. cbn. split; [done |]. split; [| split].
  - unfold JSSet.data, JSSet.obj. cbn. by rewrite lookup_insert_eq.
  - intros r Hr. rewrite lookup_insert_ne; [done | lia].
  - done.
Qed.

Lemma compileGeometryKind_array_memoized_witness :
  ∃ t' h',
    compileGeometryKind (mkTechnique FillT (Some (KArray [Area; Building; Area])))
      Sample.store = (RSet 3, t', h')
    ∧ JSSet.data h' 3 = {[VKind Area; VKind Building]}
    ∧ compileGeometryKind t' h' = (RSet 3, t', h').
Proof.
  destruct (compileGeometryKind_array_memoized
              (mkTechnique FillT (Some (KArray [Area; Building; Area])))
              [Area; Building; Area] Sample.store eq_refl)
    as (t' & h' & Hc & _ & Hd & _ & Hagain).
  exists t', h'. split; [exact Hc |]. split; [| apply Hagain].
  etrans; [exact Hd | by vm_compute].
Defined.

(** *** The state machine, call by call *)

Section Lifecycle.

Variable effect : Call → World → World.

#[local] Arguments assignInto : simpl never.
#[local] Arguments prepareAvailableGeometryKinds : simpl never.
#[local] Arguments setDecodedTile : simpl never.
#[local] Arguments setGeometryKinds : simpl never.
#[local] Arguments prepareForRender : simpl never.
#[local] Arguments finish : simpl never.
#[local] Arguments recordStatistics : simpl never.
#[local] Arguments beginCycle : simpl never.

Lemma discardNeedlessTile_disposed (s : Sys) :
  isVisible (world s) = true → disposed (world s) = true →
  ∃ s' note,
    discardNeedlessTile effect s = (true, s')
    ∧ m_isFinished (loader s') = true
    ∧ m_decodedTile (loader s') = None
    ∧ trace s' = trace s ++ note ++ [LoadingFinished; RemoveDecodedTile]
    ∧ discardNote DiscardedDisposedMsg note.
Proof.
  intros Hv Hd.
  unfold discardNeedlessTile, bind, getWorld, call, ret.
  rewrite Hv, Hd. cbn.
  destruct (statsEnabled (world s)); cbn; rewrite finish_run; cbn.
  - eexists _, [StatsAddMessage DiscardedDisposedMsg].
    do 3 (split; [done |]). split; [| by right]. cbn. by rewrite <- !app_assoc.
  - eexists _, []. do 3 (split; [done |]). split; [| by left]. done.
Qed.

Lemma discardNote_quiet (m : StatsMessage) (note : list Call) (extra : list Call) :
  discardNote m note →
  forallb (λ c, negb (isBuildCall c)) extra = true →
  forallb (λ c, negb (isQueueAdd c)) extra = true →
  forallb (λ c, negb (isBuildCall c)) (note ++ extra) = true
  ∧ forallb (λ c, negb (isQueueAdd c)) (note ++ extra) = true.
Proof. intros [-> | ->] Hb Hq; cbn; by rewrite ?Hb, ?Hq. Qed.

Lemma update_finished_run (s : Sys) (enabledKinds disabledKinds : option loc) :
  isFinished s = true →
  update effect enabledKinds disabledKinds s = (tt, s).
Proof. intros Hf. unfold update, bind, getSys. by rewrite Hf. Qed.

Lemma update_discard_run (s s' : Sys) (enabledKinds disabledKinds : option loc) :
  isFinished s = false →
  discardNeedlessTile effect s = (true, s') →
  update effect enabledKinds disabledKinds s = (tt, s').
Proof.
  intros Hf Hd. unfold update. unfold bind at 1. unfold getSys at 1.
  rewrite Hf. unfold bind at 1. by rewrite Hd.
Qed.

(** The ways an [update] call can go, told by the calls it makes. *)
Lemma update_trace (s : Sys) (enabledKinds disabledKinds : option loc) :
  ∃ cs,
    trace (update effect enabledKinds disabledKinds s).2 = trace s ++ cs
    ∧ (cs = []
       ∨ (∃ note, discardNote DiscardedInvisibleMsg note
                  ∧ cs = DisposeTile :: note ++ [LoadingFinished; RemoveDecodedTile])
       ∨ (∃ note, discardNote DiscardedDisposedMsg note
                  ∧ cs = note ++ [LoadingFinished; RemoveDecodedTile])
       ∨ cs = [LoadingFinished; RemoveDecodedTile]
       ∨ cs = [ProcessTechniques enabledKinds disabledKinds;
               QueueAdd (mkTask enabledKinds disabledKinds)]
       ∨ cs = [ProcessTechniques enabledKinds disabledKinds;
               LoadingFinished; RemoveDecodedTile]).
Proof.
  destruct (isFinished s) eqn:Hf.
  { exists []. rewrite (update_finished_run s) by done. cbn.
    split; [by rewrite app_nil_r | by left]. }
  destruct (isVisible (world s)) eqn:Hv.
  2:{ destruct (discardNeedlessTile_invisible effect s Hv)
        as (s1 & note & Hd & _ & _ & Htr & Hnote).
      rewrite (update_discard_run s s1) by done.
      eexists. split; [exact Htr |]. right; left. by exists note. }
  destruct (disposed (world s)) eqn:Hd.
  { destruct (discardNeedlessTile_disposed s Hv Hd)
      as (s1 & note & Hdis & _ & _ & Htr & Hnote).
    rewrite (update_discard_run s s1) by done.
    eexists. split; [exact Htr |]. right; right; left. by exists note. }
  destruct (tileHasNoData (world s)) eqn:Hn.
  { rewrite update_no_data, finish_run by done.
    eexists. split; [done |]. by do 3 right; left. }
  rewrite update_live by done.
  set (r := if geometryCreationPending s
               && negb (compareGeometryKinds (loader s) (heap s) enabledKinds disabledKinds)
            then (reset s).2 else s).
  assert (Htr : trace r = trace s) by (subst r; by destruct (_ && _)).
  assert (Hw : world r = world s) by (subst r; by destruct (_ && _)).
  destruct (negb (geometryCreationPending r)
            && bool_decide (decodedTile (world r) ≠ None)) eqn:Hgo.
  - apply andb_prop in Hgo as [Hp Hdt].
    apply negb_true_iff in Hp. apply bool_decide_eq_true_1 in Hdt.
    destruct (beginCycle_starts effect r enabledKinds disabledKinds Hp Hdt)
      as (s1 & -> & Hpost). cbn.
    destruct (decodedTile _) in Hpost; destruct Hpost as (_ & _ & Hpost);
      rewrite Hpost, Htr; eexists; (split; [done |]).
    + by do 4 right; left.
    + by do 5 right.
  - rewrite beginCycle_idle by done. cbn. exists [].
    split; [by rewrite Htr, app_nil_r | by left].
Qed.

(** X6: every [update] call makes one of six call sequences: none; the
    discard of an invisible tile; the discard of a disposed tile; a bare
    finish; the start of a cycle with one submission; the start of a
    cycle that finds the payload gone.  So one call submits at most one
    task, and [update] itself never clears the tile, creates geometry or
    requests a redraw. *)
Theorem update_call_sequences (s : Sys) (enabledKinds disabledKinds : option loc) :
  let cs := callsSince s (update effect enabledKinds disabledKinds s).2 in
  (cs = []
   ∨ (∃ note, discardNote DiscardedInvisibleMsg note
              ∧ cs = DisposeTile :: note ++ [LoadingFinished; RemoveDecodedTile])
   ∨ (∃ note, discardNote DiscardedDisposedMsg note
              ∧ cs = note ++ [LoadingFinished; RemoveDecodedTile])
   ∨ cs = [LoadingFinished; RemoveDecodedTile]
   ∨ cs = [ProcessTechniques enabledKinds disabledKinds;
           QueueAdd (mkTask enabledKinds disabledKinds)]
   ∨ cs = [ProcessTechniques enabledKinds disabledKinds;
           LoadingFinished; RemoveDecodedTile])
  ∧ length (List.filter isQueueAdd cs) ≤ 1
  ∧ forallb (λ c, negb (isBuildCall c)) cs = true.
Proof.
  intros cs. destruct (update_trace s enabledKinds disabledKinds) as (cs' & Htr & Hshape).
  assert (Hcs : cs = cs') by (subst cs; by apply callsSince_app).
  rewrite Hcs. split; [exact Hshape |].
  destruct Hshape as [-> | [(note & [-> | ->] & ->) | [(note & [-> | ->] & ->)
                     | [-> | [-> | ->]]]]]; cbn; split; (done || lia).
Qed.

(** X7: [update] on an unfinished controller whose tile is visible but
    already disposed finishes the controller and drops its payload
    without calling [disposeTile] and without submitting anything. *)
Theorem update_disposed_tile_finishes (s : Sys) (enabledKinds disabledKinds : option loc) :
  isFinished s = false →
  isVisible (world s) = true →
  disposed (world s) = true →
  let s' := (update effect enabledKinds disabledKinds s).2 in
  isFinished s' = true
  ∧ m_decodedTile (loader s') = None
  ∧ (∃ note, discardNote DiscardedDisposedMsg note
             ∧ callsSince s s' = note ++ [LoadingFinished; RemoveDecodedTile])
  ∧ count_occ Call_eq_dec (callsSince s s') DisposeTile = 0
  ∧ forallb (λ c, negb (isQueueAdd c)) (callsSince s s') = true.
Proof.
  intros Hf Hv Hd s'.
  destruct (discardNeedlessTile_disposed s Hv Hd) as (s1 & note & Hdis & Hfin & Hdt & Htr & Hnote).
  assert (Hs' : s' = s1) by (subst s'; by rewrite (update_discard_run s s1)).
  rewrite Hs'. do 2 (split; [done |]).
  rewrite (callsSince_app s s1 _ Htr). split; [by exists note |].
  destruct Hnote as [-> | ->]; cbn; split; try done;
    repeat (destruct (Call_eq_dec _ _); try done).
Qed.

(** X8: when the tile's loader has finished and the tile shows no decoded
    payload, [update] on a visible, undisposed tile finishes the
    controller, whatever it held: the tile is notified, nothing is
    submitted and no kind set is touched. *)
Theorem update_without_data_finishes (s : Sys) (enabledKinds disabledKinds : option loc) :
  isFinished s = false →
  isVisible (world s) = true → disposed (world s) = false →
  tileLoader (world s) = Some true → decodedTile (world s) = None →
  let s' := (update effect enabledKinds disabledKinds s).2 in
  isFinished s' = true
  ∧ m_decodedTile (loader s') = None
  ∧ callsSince s s' = [LoadingFinished; RemoveDecodedTile]
  ∧ heap s' = heap s.
Proof.
  intros Hf Hv Hd Hl Hdt s'.
  assert (Hn : tileHasNoData (world s) = true) by (unfold tileHasNoData; by rewrite Hl, Hdt).
  subst s'. rewrite update_no_data, finish_run by done. cbn.
  do 2 (split; [done |]). split; [| done]. by apply callsSince_app.
Qed.

Lemma prepare_live_run (s : Sys) (enabledKinds disabledKinds : option loc) (p : loc) :
  m_decodedTile (loader s) = Some p →
  isVisible (world s) = true → disposed (world s) = false →
  ∃ s' stats,
    prepare effect enabledKinds disabledKinds s = (tt, s')
    ∧ m_isFinished (loader s') = true
    ∧ m_decodedTile (loader s') = None
    ∧ heap s' = heap s
    ∧ (stats = [] ∨ stats = statisticsCalls)
    ∧ trace s' = trace s
                 ++ [TileClear; InitDecodedTile p enabledKinds disabledKinds;
                     CreateAllGeometries p]
                 ++ stats ++ [LoadingFinished; RemoveDecodedTile; RequestUpdate].
Proof.
  intros Hp Hv Hd. unfold prepare. unfold bind at 1. unfold getLoader. rewrite Hp.
  unfold bind at 1. rewrite (discardNeedlessTile_keeps effect s Hv Hd).
  unfold bind, call, getWorld, ret. cbn.
  match goal with |- context [statsEnabled ?w] => destruct (statsEnabled w) end.
  - unfold recordStatistics. rewrite callSeq_run. cbn. rewrite finish_run. cbn.
    eexists _, statisticsCalls.
    do 4 (split; [done |]). split; [by right |]. cbn. by rewrite <- !app_assoc.
  - rewrite finish_run. cbn. eexists _, [].
    do 4 (split; [done |]). split; [by left |]. cbn. by rewrite <- !app_assoc.
Qed.

(** The ways the queued action can go. *)
Lemma prepare_trace (s : Sys) (enabledKinds disabledKinds : option loc) :
  ∃ s' cs,
    prepare effect enabledKinds disabledKinds s = (tt, s')
    ∧ m_isFinished (loader s') = true
    ∧ m_decodedTile (loader s') = None
    ∧ trace s' = trace s ++ cs
    ∧ match m_decodedTile (loader s) with
      | None => cs = [LoadingFinished; RemoveDecodedTile]
      | Some p =>
          if isVisible (world s) && negb (disposed (world s)) then
            ∃ stats, (stats = [] ∨ stats = statisticsCalls)
                     ∧ cs = [TileClear; InitDecodedTile p enabledKinds disabledKinds;
                             CreateAllGeometries p]
                            ++ stats ++ [LoadingFinished; RemoveDecodedTile; RequestUpdate]
          else
            ∃ note, (note = [] ∨ ∃ m, note = [StatsAddMessage m])
                    ∧ (cs = DisposeTile :: note ++ [LoadingFinished; RemoveDecodedTile]
                       ∨ cs = note ++ [LoadingFinished; RemoveDecodedTile])
      end.
Proof.
  destruct (m_decodedTile (loader s)) as [p |] eqn:Hp.
  - destruct (isVisible (world s)) eqn:Hv; [destruct (disposed (world s)) eqn:Hd |]; cbn.
    + destruct (discardNeedlessTile_disposed s Hv Hd)
        as (s1 & note & Hdis & Hfin & Hdt & Htr & Hnote).
      exists s1, (note ++ [LoadingFinished; RemoveDecodedTile]).
      split. { unfold prepare. unfold bind at 1. unfold getLoader. rewrite Hp.
               unfold bind. by rewrite Hdis. }
      do 3 (split; [done |]). exists note. split; [| by right].
      destruct Hnote as [-> | ->]; [by left | right; by eexists].
    + destruct (prepare_live_run s enabledKinds disabledKinds p Hp Hv Hd)
        as (s1 & stats & Hrun & Hfin & Hdt & _ & Hstats & Htr).
      exists s1. eexists. split; [exact Hrun |]. do 2 (split; [done |]).
      split; [exact Htr |]. by exists stats.
    + destruct (discardNeedlessTile_invisible effect s Hv)
        as (s1 & note & Hdis & Hfin & Hdt & Htr & Hnote).
      exists s1, (DisposeTile :: note ++ [LoadingFinished; RemoveDecodedTile]).
      split. { unfold prepare. unfold bind at 1. unfold getLoader. rewrite Hp.
               unfold bind. by rewrite Hdis. }
      do 3 (split; [done |]). exists note. split; [| by left].
      destruct Hnote as [-> | ->]; [by left | right; by eexists].
  - exists (finish effect s).2, [LoadingFinished; RemoveDecodedTile].
    split. { unfold prepare, bind, getLoader. rewrite Hp. by destruct (finish effect s) as [[] ?]. }
    by rewrite finish_run.
Qed.

(** X9: whatever state it finds, the queued action leaves the controller
    finished and without payload and submits nothing.  When it holds a
    payload and the tile is visible and not disposed, its calls are
    exactly: clear the tile, initialise and create the geometry of the
    held payload with the kind sets it was given, the optional
    statistics, the two finish notifications and one redraw request.
    In every other state it neither clears the tile nor creates geometry
    nor requests a redraw; without a payload it only finishes. *)
Theorem prepare_always_finishes (s : Sys) (enabledKinds disabledKinds : option loc) :
  let s' := (prepare effect enabledKinds disabledKinds s).2 in
  let cs := callsSince s s' in
  isFinished s' = true
  ∧ m_decodedTile (loader s') = None
  ∧ forallb (λ c, negb (isQueueAdd c)) cs = true
  ∧ match m_decodedTile (loader s) with
    | Some p =>
        if isVisible (world s) && negb (disposed (world s)) then
          (∃ stats, (stats = [] ∨ stats = statisticsCalls)
                    ∧ cs = [TileClear; InitDecodedTile p enabledKinds disabledKinds;
                            CreateAllGeometries p]
                           ++ stats ++ [LoadingFinished; RemoveDecodedTile; RequestUpdate])
          ∧ List.filter isTileBuild cs
            = [TileClear; InitDecodedTile p enabledKinds disabledKinds;
               CreateAllGeometries p]
        else
          forallb (λ c, negb (isBuildCall c)) cs = true
          ∧ List.filter isTileBuild cs = []
    | None => cs = [LoadingFinished; RemoveDecodedTile]
    end.
Proof.
  intros s' cs.
  destruct (prepare_trace s enabledKinds disabledKinds) as (s1 & cs1 & Hrun & Hf & Hd & Htr & Hcs).
  assert (Hs' : s' = s1) by (subst s'; by rewrite Hrun).
  assert (Hcs' : cs = cs1) by (subst cs; rewrite Hs'; by apply callsSince_app).
  rewrite Hs', Hcs'. do 2 (split; [done |]).
  destruct (m_decodedTile (loader s)) as [p |]; [| by rewrite Hcs].
  destruct (isVisible (world s) && negb (disposed (world s))) eqn:Hlive.
  - destruct Hcs as (stats & Hstats & ->).
    split; [by destruct Hstats as [-> | ->] |].
    split; [by exists stats | by destruct Hstats as [-> | ->]].
  - destruct Hcs as (note & [-> | [m ->]] & [-> | ->]); by repeat split.
Qed.

(** X10: once the queued action has run, [update] does nothing: no state
    change and no call, whatever configuration it is given. *)
Theorem update_after_prepare_is_noop
    (s : Sys) (enabledKinds disabledKinds enabledKinds' disabledKinds' : option loc) :
  let s' := (prepare effect enabledKinds disabledKinds s).2 in
  update effect enabledKinds' disabledKinds' s' = (tt, s').
Proof.
  intros s'.
  destruct (prepare_trace s enabledKinds disabledKinds) as (s1 & cs & Hrun & Hf & _).
  assert (Hs' : s' = s1) by (subst s'; by rewrite Hrun).
  rewrite Hs'. by apply update_finished_run.
Qed.

Lemma compareGeometryKinds_unchanged
    (c : Loader) (h : Heap) (enabledKinds disabledKinds : option loc) :
  axisUnchanged h (m_enabledKinds c) enabledKinds
  && axisUnchanged h (m_disabledKinds c) disabledKinds = true →
  compareGeometryKinds c h enabledKinds disabledKinds = true.
Proof.
  unfold compareGeometryKinds, axisUnchanged.
  destruct (sameRef (m_enabledKinds c) enabledKinds),
           (sameRef (m_disabledKinds c) disabledKinds),
           (undefinedOrEmpty h (m_enabledKinds c) && undefinedOrEmpty h enabledKinds),
           (undefinedOrEmpty h (m_disabledKinds c) && undefinedOrEmpty h disabledKinds);
    cbn; done.
Qed.

(** X11: on sets that hold geometry kinds, [compareGeometryKinds] answers
    "equal" exactly when each axis is unchanged in the cheap sense: the
    very same reference (or both undefined), or both sides undefined or
    empty.  The contents of two different non-empty sets never count. *)
Theorem compareGeometryKinds_on_kind_sets
    (c : Loader) (h : Heap) (enabledKinds disabledKinds : option loc) :
  kindsOnly h enabledKinds = true →
  kindsOnly h disabledKinds = true →
  compareGeometryKinds c h enabledKinds disabledKinds
  = axisUnchanged h (m_enabledKinds c) enabledKinds
    && axisUnchanged h (m_disabledKinds c) disabledKinds.
Proof.
  intros Hke Hkd. unfold compareGeometryKinds, axisUnchanged.
  rewrite (axisReturnsFalse_kinds h enabledKinds (m_enabledKinds c) Hke).
  rewrite (axisReturnsFalse_kinds h disabledKinds (m_disabledKinds c) Hkd).
  destruct (sameRef (m_enabledKinds c) enabledKinds),
           (sameRef (m_disabledKinds c) disabledKinds),
           (undefinedOrEmpty h (m_enabledKinds c) && undefinedOrEmpty h enabledKinds),
           (undefinedOrEmpty h (m_disabledKinds c) && undefinedOrEmpty h disabledKinds);
    cbn; done.
Qed.

(** X12: while a build is pending on a visible, undisposed tile that is
    not out of data, [update] with a configuration that is unchanged on
    both axes (same reference, or both sides undefined or empty) changes
    nothing and calls nothing: no reset, no second submission. *)
Theorem update_unchanged_configuration_is_noop
    (s : Sys) (enabledKinds disabledKinds : option loc) :
  geometryCreationPending s = true →
  isVisible (world s) = true → disposed (world s) = false →
  tileHasNoData (world s) = false →
  axisUnchanged (heap s) (m_enabledKinds (loader s)) enabledKinds = true →
  axisUnchanged (heap s) (m_disabledKinds (loader s)) disabledKinds = true →
  update effect enabledKinds disabledKinds s = (tt, s).
Proof.
  intros Hp Hv Hd Hn He Hdis.
  assert (Hf : isFinished s = false).
  { unfold geometryCreationPending in Hp. apply andb_prop in Hp as [Hf _].
    by apply negb_true_iff in Hf. }
  rewrite update_live by done.
  rewrite compareGeometryKinds_unchanged by (by rewrite He, Hdis).
  rewrite andb_false_r. apply beginCycle_idle. by rewrite Hp.
Qed.

Lemma beginCycle_submits (s : Sys) (enabledKinds disabledKinds : option loc) (p : loc) :
  geometryCreationPending s = false →
  decodedTile (world s) ≠ None →
  decodedTile (effect (ProcessTechniques enabledKinds disabledKinds) (world s)) = Some p →
  ∃ s', beginCycle effect enabledKinds disabledKinds s = (tt, s')
    ∧ m_decodedTile (loader s') = Some p
    ∧ m_isFinished (loader s') = m_isFinished (loader s)
    ∧ world s' = effect (QueueAdd (mkTask enabledKinds disabledKinds))
                   (effect (ProcessTechniques enabledKinds disabledKinds) (world s))
    ∧ trace s' = trace s ++ [ProcessTechniques enabledKinds disabledKinds;
                              QueueAdd (mkTask enabledKinds disabledKinds)].
Proof.
  intros Hp Hd Hdt. unfold beginCycle, bind, getSys, getWorld.
  rewrite Hp, bool_decide_eq_true_2 by done. cbn.
  pose proof (setGeometryKinds_run
    (mkSys (loader s) (heap s)
       (effect (ProcessTechniques enabledKinds disabledKinds) (world s))
       (trace s ++ [ProcessTechniques enabledKinds disabledKinds]))
    enabledKinds disabledKinds) as Hset.
  cbn in Hset. unfold call. cbn. rewrite Hset. clear Hset. cbn.
  match goal with
  | |- context [setDecodedTile ?dt ?st] =>
      destruct (setDecodedTile_run st dt) as (h' & av & Hsd); rewrite Hsd; clear Hsd
  end.
  cbn. rewrite Hdt.
  unfold prepareForRender, bind, getLoader, call. cbn.
  eexists. split; [done |]. cbn. do 3 (split; [done |]). by rewrite <- app_assoc.
Qed.

(** X13: end to end.  An idle controller on a visible, undisposed tile
    with a payload receives [update]; the submitted task then runs while
    the tile is still visible and undisposed.  The calls are, in order:
    process techniques, one submission, clear the tile, initialise and
    create the geometry of the captured payload with the kind sets given
    to [update], optional statistics, the finish notifications and the
    redraw request; the controller ends finished without payload. *)
Theorem update_then_execute_builds
    (s : Sys) (enabledKinds disabledKinds : option loc) (p : loc) :
  isFinished s = false → m_decodedTile (loader s) = None →
  isVisible (world s) = true → disposed (world s) = false →
  decodedTile (world s) ≠ None →
  decodedTile (effect (ProcessTechniques enabledKinds disabledKinds) (world s)) = Some p →
  let queued := effect (QueueAdd (mkTask enabledKinds disabledKinds))
                  (effect (ProcessTechniques enabledKinds disabledKinds) (world s)) in
  isVisible queued = true → disposed queued = false →
  let s1 := (update effect enabledKinds disabledKinds s).2 in
  let s2 := (execute effect (mkTask enabledKinds disabledKinds) s1).2 in
  isFinished s2 = true
  ∧ m_decodedTile (loader s2) = None
  ∧ ∃ stats, (stats = [] ∨ stats = statisticsCalls)
             ∧ callsSince s s2
               = [ProcessTechniques enabledKinds disabledKinds;
                  QueueAdd (mkTask enabledKinds disabledKinds);
                  TileClear; InitDecodedTile p enabledKinds disabledKinds;
                  CreateAllGeometries p]
                 ++ stats ++ [LoadingFinished; RemoveDecodedTile; RequestUpdate].
Proof.
  intros Hf Hdt Hv Hd Hw Hp queued Hqv Hqd s1 s2.
  assert (Hpend : geometryCreationPending s = false).
  { unfold geometryCreationPending. rewrite Hdt. by rewrite andb_false_r. }
  assert (Hn : tileHasNoData (world s) = false).
  { unfold tileHasNoData. rewrite bool_decide_eq_false_2 by done. by rewrite andb_false_r. }
  destruct (beginCycle_submits s enabledKinds disabledKinds p Hpend Hw Hp)
    as (t1 & Hrun & Hdt1 & _ & Hw1 & Htr1).
  assert (Hs1 : s1 = t1).
  { subst s1. rewrite update_live by done. rewrite Hpend. cbn. by rewrite Hrun. }
  destruct (prepare_live_run t1 enabledKinds disabledKinds p Hdt1)
    as (t2 & stats & Hrun2 & Hf2 & Hdt2 & _ & Hstats & Htr2);
    [by rewrite Hw1 | by rewrite Hw1 |].
  assert (Hs2 : s2 = t2).
  { subst s2. rewrite Hs1. unfold execute.
    cbn [boundEnabledKinds boundDisabledKinds]. by rewrite Hrun2. }
  rewrite Hs2. do 2 (split; [done |]). exists stats. split; [done |].
  apply callsSince_app. rewrite Htr2, Htr1. by rewrite <- !app_assoc.
Qed.

(** X14: [reset] re-arms the controller, finished or not: the next
    [update] on a visible, undisposed tile with a payload starts a cycle,
    captures the payload and submits exactly one task. *)
Theorem reset_then_update_submits
    (s : Sys) (enabledKinds disabledKinds : option loc) (p : loc) :
  isVisible (world s) = true → disposed (world s) = false →
  decodedTile (world s) ≠ None →
  decodedTile (effect (ProcessTechniques enabledKinds disabledKinds) (world s)) = Some p →
  let r := (reset s).2 in
  let s' := (update effect enabledKinds disabledKinds r).2 in
  callsSince r s' = [ProcessTechniques enabledKinds disabledKinds;
                     QueueAdd (mkTask enabledKinds disabledKinds)]
  ∧ m_decodedTile (loader s') = Some p
  ∧ isFinished s' = false.
Proof.
  intros Hv Hd Hw Hp r s'.
  by apply (update_idle_submits effect r enabledKinds disabledKinds p).
Qed.

Lemma prepareAvailableGeometryKinds_fresh (d : loc) (h : Heap) :
  (prepareAvailableGeometryKinds d h).1 = nextLoc h
  ∧ (∀ r, r < nextLoc h →
       kindSets (prepareAvailableGeometryKinds d h).2 !! r = kindSets h !! r).
Proof.
  destruct (payloads h !! d) as [p |] eqn:Hp.
  - by destruct (prepareAvailableGeometryKinds_run d h p Hp)
      as (ts' & h' & -> & _ & _ & Hk & _).
  - unfold prepareAvailableGeometryKinds, JSSet.new. cbn. rewrite Hp. cbn.
    split; [done |]. intros r Hr. rewrite lookup_insert_ne; [done | lia].
Qed.

(** X15: [setDecodedTile] with a payload stores the payload reference and
    publishes a newly allocated kind set; it touches no set object that
    existed before (a reference read earlier from
    [availableGeometryKinds] keeps its contents, unlike after [reset]),
    and it leaves [isFinished], the stored configuration, the tile and
    the record of calls alone. *)
Theorem setDecodedTile_publishes_fresh_set (s : Sys) (d : loc) :
  let s' := (setDecodedTile (Some d) s).2 in
  (setDecodedTile (Some d) s).1 = Some d
  ∧ m_decodedTile (loader s') = Some d
  ∧ availableGeometryKinds s' = Some (nextLoc (heap s))
  ∧ (∀ r, r < nextLoc (heap s) → kindSets (heap s') !! r = kindSets (heap s) !! r)
  ∧ isFinished s' = isFinished s
  ∧ m_enabledKinds (loader s') = m_enabledKinds (loader s)
  ∧ m_disabledKinds (loader s') = m_disabledKinds (loader s)
  ∧ world s' = world s
  ∧ trace s' = trace s.
Proof.
  intros s'. subst s'.
  destruct (prepareAvailableGeometryKinds_fresh d (heap s)) as (Hf & Hk).
  unfold setDecodedTile, bind, ret, putLoader, onHeap. cbn.
  destruct (prepareAvailableGeometryKinds d (heap s)) as [found h']. cbn in *.
  subst found. by repeat split.
Qed.

End Lifecycle.

Lemma update_disposed_tile_finishes_witness :
  let s := mkSys newLoader Sample.store Sample.disposedTile [] in
  let s' := (update Scenario.quiet None None s).2 in
  isFinished s' = true
  ∧ callsSince s s' = [LoadingFinished; RemoveDecodedTile].
Proof.
  cbv zeta.
  destruct (update_disposed_tile_finishes Scenario.quiet
              (mkSys newLoader Sample.store Sample.disposedTile []) None None
              eq_refl eq_refl eq_refl) as (Hf & _ & _ & _ & _).
  split; [exact Hf | by vm_compute].
Defined.

Lemma update_without_data_finishes_witness :
  let s := mkSys newLoader Sample.store Sample.emptyTile [] in
  let s' := (update Scenario.quiet (Some 1) None s).2 in
  isFinished s' = true
  ∧ m_decodedTile (loader s') = None
  ∧ callsSince s s' = [LoadingFinished; RemoveDecodedTile]
  ∧ heap s' = heap s.
Proof.
  apply (update_without_data_finishes Scenario.quiet
           (mkSys newLoader Sample.store Sample.emptyTile []) (Some 1) None);
    reflexivity.
Defined.

Lemma compareGeometryKinds_on_kind_sets_witness :
  compareGeometryKinds Scenario.storingLine Scenario.store0 (Some 1) None = true
  ∧ compareGeometryKinds Scenario.storingLine Scenario.store0 (Some 2) None = false.
Proof.
  split.
  - rewrite (compareGeometryKinds_on_kind_sets Scenario.storingLine Scenario.store0
               (Some 1) None); by vm_compute.
  - rewrite (compareGeometryKinds_on_kind_sets Scenario.storingLine Scenario.store0
               (Some 2) None); by vm_compute.
Defined.

Lemma update_unchanged_configuration_is_noop_witness :
  let s := (update Scenario.quiet None None Sample.fresh).2 in
  geometryCreationPending s = true
  ∧ update Scenario.quiet None None s = (tt, s).
Proof.
  cbv zeta. split; [by vm_compute |].
  apply (update_unchanged_configuration_is_noop Scenario.quiet
           (update Scenario.quiet None None Sample.fresh).2 None None);
    by vm_compute.
Defined.

Lemma update_then_execute_builds_witness :
  let s1 := (update Scenario.quiet (Some 1) None Sample.fresh).2 in
  let s2 := (execute Scenario.quiet (mkTask (Some 1) None) s1).2 in
  isFinished s2 = true
  ∧ m_decodedTile (loader s2) = None
  ∧ ∃ stats, (stats = [] ∨ stats = statisticsCalls)
             ∧ callsSince Sample.fresh s2
               = [ProcessTechniques (Some 1) None; QueueAdd (mkTask (Some 1) None);
                  TileClear; InitDecodedTile 0 (Some 1) None; CreateAllGeometries 0]
                 ++ stats ++ [LoadingFinished; RemoveDecodedTile; RequestUpdate].
Proof.
  apply (update_then_execute_builds Scenario.quiet Sample.fresh (Some 1) None 0);
    by vm_compute.
Defined.

Lemma reset_then_update_submits_witness :
  let r := (reset Scenario.finished).2 in
  let s' := (update Scenario.quiet None None r).2 in
  isFinished Scenario.finished = true
  ∧ callsSince r s' = [ProcessTechniques None None; QueueAdd (mkTask None None)]
  ∧ m_decodedTile (loader s') = Some 0
  ∧ isFinished s' = false.
Proof.
  cbv zeta. split; [reflexivity |].
  apply (reset_then_update_submits Scenario.quiet Scenario.finished None None 0);
    by vm_compute.
Defined.

(** *** The stored configuration never holds a kind

    [setGeometryKinds] is the only method that writes the stored enabled
    and disabled sets, and it fills them with [Object.assign], which
    copies no element; [reset] empties them; nothing else touches them,
    and no method hands them out.  So from construction on the stored
    sets are empty, and [compareGeometryKinds] never meets an axis whose
    stored and supplied sets are both non-empty. *)

Section StoredKinds.

Variable effect : Call → World → World.

#[local] Arguments assignInto : simpl never.
#[local] Arguments prepareAvailableGeometryKinds : simpl never.
#[local] Arguments setDecodedTile : simpl never.
#[local] Arguments setGeometryKinds : simpl never.
#[local] Arguments prepareForRender : simpl never.
#[local] Arguments finish : simpl never.
#[local] Arguments recordStatistics : simpl never.
#[local] Arguments beginCycle : simpl never.

Lemma storedSetsEmpty_frame (s s' : Sys) :
  m_enabledKinds (loader s') = m_enabledKinds (loader s) →
  m_disabledKinds (loader s') = m_disabledKinds (loader s) →
  nextLoc (heap s) ≤ nextLoc (heap s') →
  (∀ r, r < nextLoc (heap s) → kindSets (heap s') !! r = kindSets (heap s) !! r) →
  storedSetsEmpty s → storedSetsEmpty s'.
Proof.
  intros He Hd Hn Hk Hinv r Hr. rewrite He, Hd in Hr.
  destruct (Hinv r Hr) as [Hlt Hdata]. split; [lia |].
  rewrite <- Hdata. by apply data_of_lookup, Hk.
Qed.

Lemma keepsStored_storedSetsEmpty (s s' : Sys) :
  keepsStored s s' → storedSetsEmpty s → storedSetsEmpty s'.
Proof.
  intros (He & Hd & Hh). apply storedSetsEmpty_frame; try done; by rewrite Hh.
Qed.

Lemma finish_keepsStored (s : Sys) : keepsStored s (finish effect s).2.
Proof. by rewrite finish_run. Qed.

Lemma discardNeedlessTile_keepsStored (s : Sys) :
  keepsStored s (discardNeedlessTile effect s).2.
Proof.
  unfold discardNeedlessTile, bind, getWorld, call, ret.
  destruct (isVisible (world s)); cbn.
  - destruct (disposed (world s)); cbn; [| done].
    destruct (statsEnabled (world s)); cbn; by rewrite finish_run.
  - match goal with |- context [statsEnabled ?w] => destruct (statsEnabled w) end;
      cbn; by rewrite finish_run.
Qed.

Lemma prepare_keepsStored (s : Sys) (enabledKinds disabledKinds : option loc) :
  keepsStored s (prepare effect enabledKinds disabledKinds s).2.
Proof.
  unfold prepare. unfold bind at 1. unfold getLoader.
  destruct (m_decodedTile (loader s)) as [p |]; [| apply finish_keepsStored].
  pose proof (discardNeedlessTile_keepsStored s) as Hkeep.
  unfold bind at 1.
  destruct (isVisible (world s) && negb (disposed (world s))) eqn:Hw.
  - apply andb_prop in Hw as [Hv Hd]. apply negb_true_iff in Hd.
    rewrite (discardNeedlessTile_keeps effect s Hv Hd).
    unfold bind, call, getWorld, ret. cbn.
    match goal with |- context [statsEnabled ?w] => destruct (statsEnabled w) end.
    + unfold recordStatistics. rewrite callSeq_run. cbn. by rewrite finish_run.
    + by rewrite finish_run.
  - destruct (discardNeedlessTile_discards effect s Hw) as (s' & Hd & _).
    rewrite Hd in Hkeep |- *. exact Hkeep.
Qed.

Lemma assignInto_nextLoc (stored : option loc) (supplied : loc) (h : Heap) :
  nextLoc (assignInto stored supplied h).2
  = match stored with Some _ => nextLoc h | None => S (nextLoc h) end.
Proof. by destruct stored. Qed.

Lemma assignInto_storedEmpty (stored other : option loc) (supplied : loc) (h : Heap) (r : loc) :
  (∀ x, stored = Some x ∨ other = Some x → x < nextLoc h ∧ JSSet.data h x = ∅) →
  Some (default (nextLoc h) stored) = Some r ∨ other = Some r →
  r < nextLoc (assignInto stored supplied h).2
  ∧ JSSet.data (assignInto stored supplied h).2 r = ∅.
Proof.
  intros Hinv Hr. rewrite assignInto_nextLoc, assignInto_data.
  destruct stored as [t |]; cbn in *.
  - rewrite decide_False by (by intros [? _]).
    apply Hinv. destruct Hr as [[= <-] | Hr]; [by left | by right].
  - destruct Hr as [[= <-] | Hr].
    + rewrite decide_True by done. split; [lia | done].
    + destruct (Hinv r (or_intror Hr)) as [Hlt Hdata].
      rewrite decide_False by (intros [_ ?]; lia). split; [lia | done].
Qed.

Lemma setGeometryKinds_storedSetsEmpty (s : Sys) (enabledKinds disabledKinds : option loc) :
  storedSetsEmpty s → storedSetsEmpty (setGeometryKinds enabledKinds disabledKinds s).2.
Proof.
  intros Hinv. rewrite setGeometryKinds_run. cbn.
  set (h1 := match enabledKinds with
             | Some e => (assignInto (m_enabledKinds (loader s)) e (heap s)).2
             | None => heap s
             end).
  set (en := match enabledKinds with
             | Some e => Some (default (nextLoc (heap s)) (m_enabledKinds (loader s)))
             | None => m_enabledKinds (loader s)
             end).
  assert (H1 : ∀ x, m_disabledKinds (loader s) = Some x ∨ en = Some x →
                    x < nextLoc h1 ∧ JSSet.data h1 x = ∅).
  { intros x Hx. subst h1 en. destruct enabledKinds as [e |].
    - apply (assignInto_storedEmpty _ (m_disabledKinds (loader s))).
      + intros y Hy. apply Hinv. tauto.
      + tauto.
    - apply Hinv. tauto. }
  intros r Hr. cbn in Hr. destruct disabledKinds as [d |].
  - apply (assignInto_storedEmpty _ en); [exact H1 | tauto].
  - apply H1. tauto.
Qed.

Lemma prepareAvailableGeometryKinds_nextLoc (d : loc) (h : Heap) :
  nextLoc h ≤ nextLoc (prepareAvailableGeometryKinds d h).2.
Proof.
  destruct (payloads h !! d) as [p |] eqn:Hp.
  - destruct (prepareAvailableGeometryKinds_run d h p Hp) as (ts' & h' & -> & _ & Hn & _).
    cbn. lia.
  - unfold prepareAvailableGeometryKinds, JSSet.new. cbn. rewrite Hp. cbn. lia.
Qed.

Lemma setDecodedTile_storedSetsEmpty (s : Sys) (decoded : option loc) :
  storedSetsEmpty s → storedSetsEmpty (setDecodedTile decoded s).2.
Proof.
  unfold setDecodedTile, bind, ret, putLoader, onHeap.
  destruct decoded as [d |]; cbn; [| by apply storedSetsEmpty_frame].
  pose proof (prepareAvailableGeometryKinds_nextLoc d (heap s)) as Hn.
  destruct (prepareAvailableGeometryKinds_fresh d (heap s)) as [_ Hk].
  destruct (prepareAvailableGeometryKinds d (heap s)) as [found h']. cbn in *.
  by apply storedSetsEmpty_frame.
Qed.

Lemma prepareForRender_keepsStored (s : Sys) (enabledKinds disabledKinds : option loc) :
  keepsStored s (prepareForRender effect enabledKinds disabledKinds s).2.
Proof.
  unfold prepareForRender, bind, getLoader.
  destruct (m_decodedTile (loader s)); [done | apply finish_keepsStored].
Qed.

Lemma clearIfDefined_nextLoc (o : option loc) (h : Heap) :
  nextLoc (clearIfDefined o h) = nextLoc h.
Proof. by destruct o. Qed.

Lemma reset_storedSetsEmpty (s : Sys) :
  storedSetsEmpty s → storedSetsEmpty (reset s).2.
Proof.
  intros Hinv r Hr. rewrite reset_run in Hr |- *. cbn in Hr |- *.
  destruct (Hinv r Hr) as [Hlt Hdata].
  rewrite !clearIfDefined_nextLoc, !clearIfDefined_data. split; [done |].
  by repeat case_bool_decide.
Qed.

Lemma beginCycle_storedSetsEmpty (s : Sys) (enabledKinds disabledKinds : option loc) :
  storedSetsEmpty s → storedSetsEmpty (beginCycle effect enabledKinds disabledKinds s).2.
Proof.
  intros Hinv. unfold beginCycle, bind, getSys, getWorld.
  destruct (negb (geometryCreationPending s) && _); [| done].
  unfold call. cbn.
  set (s1 := mkSys (loader s) (heap s)
               (effect (ProcessTechniques enabledKinds disabledKinds) (world s))
               (trace s ++ [ProcessTechniques enabledKinds disabledKinds])).
  assert (H1 : storedSetsEmpty s1) by exact Hinv.
  apply (setGeometryKinds_storedSetsEmpty s1 enabledKinds disabledKinds) in H1.
  destruct (setGeometryKinds enabledKinds disabledKinds s1) as [[] s2]. cbn in *.
  apply (setDecodedTile_storedSetsEmpty s2 (decodedTile (world s2))) in H1.
  destruct (setDecodedTile (decodedTile (world s2)) s2) as [dt s3]. cbn in *.
  apply (keepsStored_storedSetsEmpty s3); [apply prepareForRender_keepsStored | exact H1].
Qed.

Lemma update_storedSetsEmpty (s : Sys) (enabledKinds disabledKinds : option loc) :
  storedSetsEmpty s → storedSetsEmpty (update effect enabledKinds disabledKinds s).2.
Proof.
  intros Hinv. destruct (isFinished s) eqn:Hf.
  { by rewrite (update_finished_run effect s). }
  destruct (isVisible (world s) && negb (disposed (world s))) eqn:Hw.
  - apply andb_prop in Hw as [Hv Hd]. apply negb_true_iff in Hd.
    destruct (tileHasNoData (world s)) eqn:Hn.
    + rewrite update_no_data by done.
      apply (keepsStored_storedSetsEmpty s); [apply finish_keepsStored | exact Hinv].
    + rewrite update_live by done. apply beginCycle_storedSetsEmpty.
      destruct (geometryCreationPending s && _); [by apply reset_storedSetsEmpty | done].
  - pose proof (discardNeedlessTile_keepsStored s) as Hkeep.
    destruct (discardNeedlessTile_discards effect s Hw) as (s' & Hd & _).
    rewrite Hd in Hkeep. rewrite (update_discard_run effect s s') by done.
    by apply (keepsStored_storedSetsEmpty s).
Qed.

(** The stored configuration holds no kind after construction, and every
    method keeps it so. *)
Lemma stored_kind_sets_stay_empty
    (s : Sys) (enabledKinds disabledKinds decoded : option loc) (t : Task) :
  storedSetsEmpty s →
  storedSetsEmpty (update effect enabledKinds disabledKinds s).2
  ∧ storedSetsEmpty (execute effect t s).2
  ∧ storedSetsEmpty (reset s).2
  ∧ storedSetsEmpty (dispose s).2
  ∧ storedSetsEmpty (finish effect s).2
  ∧ storedSetsEmpty (setDecodedTile decoded s).2
  ∧ storedSetsEmpty (setGeometryKinds enabledKinds disabledKinds s).2.
Proof.
  intros Hinv.
  split; [by apply update_storedSetsEmpty |].
  split; [apply (keepsStored_storedSetsEmpty s); [apply prepare_keepsStored | exact Hinv] |].
  split; [by apply reset_storedSetsEmpty |].
  split; [exact Hinv |].
  split; [apply (keepsStored_storedSetsEmpty s); [apply finish_keepsStored | exact Hinv] |].
  split; [by apply setDecodedTile_storedSetsEmpty |].
  by apply setGeometryKinds_storedSetsEmpty.
Qed.

Lemma newLoader_storedSetsEmpty (h : Heap) (w : World) (tr : list Call) :
  storedSetsEmpty (mkSys newLoader h w tr).
Proof. intros r [Hr | Hr]; discriminate Hr. Qed.

(** With empty stored sets no axis holds two non-empty sets, whatever is
    supplied. *)
Lemma storedSetsEmpty_never_distinctNonEmpty (s : Sys) (enabledKinds disabledKinds : option loc) :
  storedSetsEmpty s →
  distinctNonEmpty (heap s) (m_enabledKinds (loader s)) enabledKinds
  || distinctNonEmpty (heap s) (m_disabledKinds (loader s)) disabledKinds = false.
Proof.
  intros Hinv.
  assert (H : ∀ stored supplied,
             (∀ r, stored = Some r → JSSet.data (heap s) r = ∅) →
             distinctNonEmpty (heap s) stored supplied = false).
  { intros [r |] [n |] Hr; cbn; try done.
    unfold JSSet.size. rewrite (Hr r eq_refl), size_empty. cbn.
    by rewrite andb_false_r. }
  rewrite !H; [done | |]; intros r Hr; apply Hinv; tauto.
Qed.

End StoredKinds.

(** ** Properties of the OMV data source *)

Section OmvProperties.

Variable E : Omv.Env.

#[local] Arguments Omv.configureDecoder : simpl never.

Lemma infoCount_app (a b : list Omv.Call) : Omv.infoCount (a ++ b) = Omv.infoCount a + Omv.infoCount b.
Proof. unfold Omv.infoCount. by rewrite List.filter_app, length_app. Qed.

Lemma configureDecoder_run (styleSet definitions : option Omv.ObjRef)
    (languages : option (list string)) (options : option Omv.OptionsMap) (st : Omv.State E) :
  Omv.configureDecoder E styleSet definitions languages options st
  = Omv.mkState (Omv.infoEmitted st) (Omv.self st)
      (Omv.calls st ++ [Omv.ClearCache;
                        Omv.DecoderConfigure styleSet definitions languages options;
                        Omv.MarkTilesDirty]).
Proof.
  unfold Omv.configureDecoder, Omv.log. cbn. by rewrite <- !app_assoc.
Qed.

Lemma bracketed_app (a b : list Omv.Call) :
  Omv.bracketed a = true → Omv.bracketed (a ++ b) = Omv.bracketed b.
Proof.
  remember (length a) as n eqn:Hn. revert a Hn.
  induction n as [n IH] using lt_wf_ind. intros a Hn Ha.
  destruct a as [| c rest]; [done |].
  destruct c; cbn in Ha |- *; try done.
  - apply (IH (length rest)); [cbn in Hn; lia | done | done].
  - apply (IH (length rest)); [cbn in Hn; lia | done | done].
  - destruct rest as [| [] [| [] rest']]; try done.
    apply (IH (length rest')); [cbn in Hn; lia | done | done].
Qed.

(** What one operation adds to the record of calls and does to the
    module's flag. *)
Lemma step_calls (op : Omv.Op E) (st : Omv.State E) :
  ∃ cs,
    Omv.calls (Omv.step E op st) = Omv.calls st ++ cs
    ∧ Omv.bracketed cs = true
    ∧ ((Omv.infoEmitted (Omv.step E op st) = Omv.infoEmitted st ∧ Omv.infoCount cs = 0)
       ∨ (Omv.infoEmitted st = false ∧ Omv.infoEmitted (Omv.step E op st) = true
          ∧ Omv.infoCount cs = 1)).
Proof.
  destruct op as [[error |] | | f | [l |] | z | b]; cbn [Omv.step].
  - unfold Omv.connect. cbn.
    destruct (Omv.isUnknownServiceError E error) as [thrown | unknown]; cbn.
    { exists [Omv.SuperConnect]. do 2 (split; [done |]). by left. }
    destruct (unknown && negb (Omv.infoEmitted st)) eqn:Hlog; cbn.
    + exists [Omv.SuperConnect; Omv.LoggerInfo]. rewrite <- app_assoc.
      do 2 (split; [done |]). right. apply andb_prop in Hlog as [_ Hlog].
      by apply negb_true_iff in Hlog.
    + exists [Omv.SuperConnect]. do 2 (split; [done |]). by left.
  - unfold Omv.connect. cbn. rewrite configureDecoder_run. cbn.
    eexists. rewrite <- app_assoc. split; [done |]. split; [done |]. by left.
  - unfold Omv.removeDataFilter. rewrite configureDecoder_run. cbn.
    eexists. split; [done |]. split; [done |]. by left.
  - unfold Omv.setDataFilter.
    destruct (Omv.isJsonExpr E f || Omv.isExpr E f); rewrite configureDecoder_run; cbn;
      eexists; (split; [done |]); (split; [done |]); by left.
  - unfold Omv.setLanguages. rewrite configureDecoder_run. cbn.
    eexists. split; [done |]. split; [done |]. by left.
  - exists []. rewrite app_nil_r. do 2 (split; [done |]). by left.
  - unfold Omv.setStorageLevelOffset. cbn. rewrite configureDecoder_run. cbn.
    eexists. split; [done |]. split; [done |]. by left.
  - unfold Omv.setEnableElevationOverlay.
    destruct (negb _).
    + rewrite configureDecoder_run. cbn.
      eexists. split; [done |]. split; [done |]. by left.
    + exists []. rewrite app_nil_r. do 2 (split; [done |]). by left.
Qed.

Lemma run_cons (op : Omv.Op E) (ops : list (Omv.Op E)) (st : Omv.State E) :
  Omv.run E (op :: ops) st = Omv.run E ops (Omv.step E op st).
Proof. done. Qed.

(** X16: whatever the operations and their order, every
    [decoder.configure] call written in OmvDataSource.ts is made with the
    tile cache cleared immediately before and the map view's tiles marked
    dirty immediately after.  This speaks of the data source's own calls
    only: the base class's [super.connect()] is one entry of the record,
    and what it does to the decoder is not covered. *)
Theorem run_brackets_every_configuration (ops : list (Omv.Op E)) (st : Omv.State E) :
  Omv.bracketed (Omv.calls st) = true →
  Omv.bracketed (Omv.calls (Omv.run E ops st)) = true.
Proof.
  revert st. induction ops as [| op ops IH]; intros st Hb; [done |].
  rewrite run_cons. apply IH.
  destruct (step_calls op st) as (cs & -> & Hcs & _).
  by rewrite bracketed_app.
Qed.

(** X17: over any sequence of operations the hint about the missing
    decoder service is logged at most once, and not at all when the
    module's flag was already set. *)
Theorem run_logs_missing_service_once (ops : list (Omv.Op E)) (st : Omv.State E) :
  Omv.infoCount (Omv.calls (Omv.run E ops st))
  ≤ Omv.infoCount (Omv.calls st) + (if Omv.infoEmitted st then 0 else 1).
Proof.
  revert st. induction ops as [| op ops IH]; intros st; [cbn; lia |].
  rewrite run_cons. specialize (IH (Omv.step E op st)).
  destruct (step_calls op st) as (cs & Hcs & _ & [[Hflag Hn] | (Hold & Hnew & Hn)]);
    rewrite Hcs, infoCount_app in IH.
  - rewrite Hflag in IH. lia.
  - rewrite Hnew in IH. rewrite Hold. lia.
Qed.


(** X19: [removeDataFilter()] tells the decoder to drop both filters but
    does not forget them: the stored decoder options are unchanged, so
    the next successful [connect()] configures the decoder with the
    earlier filters again. *)
Theorem removeDataFilter_keeps_stored_filters (st : Omv.State E) :
  let st1 := Omv.removeDataFilter E st in
  let st2 := (Omv.connect E None st1).2 in
  Omv.self st1 = Omv.self st
  ∧ Omv.calls st2
    = Omv.calls st
      ++ [Omv.ClearCache; Omv.DecoderConfigure None None None (Some Omv.NoFilters);
          Omv.MarkTilesDirty;
          Omv.SuperConnect;
          Omv.ClearCache;
          Omv.DecoderConfigure None None None
            (Some (Omv.AllOptions (Omv.m_decoderOptions (Omv.self st))));
          Omv.MarkTilesDirty].
Proof.
  unfold Omv.removeDataFilter, Omv.connect. rewrite !configureDecoder_run. cbn.
  rewrite ?configureDecoder_run. cbn. by rewrite <- !app_assoc.
Qed.

(** X20: [setEnableElevationOverlay] is idempotent: it stores the flag,
    and reconfigures the decoder only when the flag changes, so a
    repeated call with the same value does nothing at all. *)
Theorem setEnableElevationOverlay_idempotent (enable : bool) (st : Omv.State E) :
  let st1 := Omv.setEnableElevationOverlay E enable st in
  Omv.o_enableElevationOverlay (Omv.m_decoderOptions (Omv.self st1)) = enable
  ∧ Omv.setEnableElevationOverlay E enable st1 = st1
  ∧ (Omv.o_enableElevationOverlay (Omv.m_decoderOptions (Omv.self st)) = enable → st1 = st)
  ∧ (Omv.o_enableElevationOverlay (Omv.m_decoderOptions (Omv.self st)) ≠ enable →
     Omv.calls st1
     = Omv.calls st
       ++ [Omv.ClearCache;
           Omv.DecoderConfigure None None None (Some (Omv.ElevationOverlayOption enable));
           Omv.MarkTilesDirty]).
Proof.
  unfold Omv.setEnableElevationOverlay.
  destruct (Omv.o_enableElevationOverlay (Omv.m_decoderOptions (Omv.self st))) eqn:Ho,
           enable; cbn; rewrite ?configureDecoder_run; cbn; rewrite ?Ho; cbn;
    repeat split; auto; try done.
Qed.

(** X21: after the [storageLevelOffset] setter, the offset kept in the
    decoder options and the offset sent to the decoder are both the value
    the base-class getter returns, whatever the base class did with the
    value it was given. *)
Theorem setStorageLevelOffset_consistent (levelOffset : Z) (st : Omv.State E) :
  let st' := Omv.setStorageLevelOffset E levelOffset st in
  Omv.o_storageLevelOffset (Omv.m_decoderOptions (Omv.self st'))
  = Omv.getStorageLevelOffset E st'
  ∧ Omv.calls st'
    = Omv.calls st
      ++ [Omv.ClearCache;
          Omv.DecoderConfigure None None None
            (Some (Omv.StorageLevelOffsetOption (Omv.getStorageLevelOffset E st')));
          Omv.MarkTilesDirty].
Proof.
  unfold Omv.setStorageLevelOffset. cbn. by rewrite configureDecoder_run.
Qed.

Lemma setDataFilter_run (f : Omv.FilterArg) (st : Omv.State E) :
  let o := Omv.m_decoderOptions (Omv.self st) in
  let o' := Omv.m_decoderOptions (Omv.self (Omv.setDataFilter E f st)) in
  if Omv.isJsonExpr E f || Omv.isExpr E f then
    Omv.o_filterDescription o' = Omv.o_filterDescription o
    ∧ Omv.o_dataFilter o' = Some (if Omv.isExpr E f then Omv.ToJSON f else Omv.AsGiven f)
  else
    Omv.o_dataFilter o' = Omv.o_dataFilter o
    ∧ Omv.o_filterDescription o' = match f with Omv.FNull => None | _ => Some f end.
Proof.
  unfold Omv.setDataFilter.
  destruct (Omv.isJsonExpr E f || Omv.isExpr E f); rewrite configureDecoder_run; by cbn.
Qed.

(** X22: the two kinds of filter are stored independently.  After a
    filter description and an expression have been set, in either order,
    the decoder options hold both: setting one kind never replaces or
    clears the other, and a later [setDataFilter(null)] clears the
    description only. *)
Theorem setDataFilter_keeps_other_kind (descr expr : Omv.FilterArg) (st : Omv.State E) :
  Omv.isJsonExpr E descr || Omv.isExpr E descr = false →
  Omv.isJsonExpr E expr || Omv.isExpr E expr = true →
  Omv.isJsonExpr E Omv.FNull || Omv.isExpr E Omv.FNull = false →
  descr ≠ Omv.FNull →
  let stored := Some (if Omv.isExpr E expr then Omv.ToJSON expr else Omv.AsGiven expr) in
  let a := Omv.m_decoderOptions
             (Omv.self (Omv.setDataFilter E expr (Omv.setDataFilter E descr st))) in
  let b := Omv.m_decoderOptions
             (Omv.self (Omv.setDataFilter E descr (Omv.setDataFilter E expr st))) in
  let c := Omv.m_decoderOptions
             (Omv.self (Omv.setDataFilter E Omv.FNull
                          (Omv.setDataFilter E expr (Omv.setDataFilter E descr st)))) in
  (Omv.o_filterDescription a = Some descr ∧ Omv.o_dataFilter a = stored)
  ∧ (Omv.o_filterDescription b = Some descr ∧ Omv.o_dataFilter b = stored)
  ∧ (Omv.o_filterDescription c = None ∧ Omv.o_dataFilter c = stored).
Proof.
  intros Hd He Hn Hnn stored a b c.
  assert (Hdescr : ∀ s0,
    Omv.o_dataFilter (Omv.m_decoderOptions (Omv.self (Omv.setDataFilter E descr s0)))
    = Omv.o_dataFilter (Omv.m_decoderOptions (Omv.self s0))
    ∧ Omv.o_filterDescription (Omv.m_decoderOptions (Omv.self (Omv.setDataFilter E descr s0)))
      = Some descr).
  { intros s0. pose proof (setDataFilter_run descr s0) as H. cbv zeta in H.
    rewrite Hd in H. destruct H as [H1 H2]. split; [done |]. rewrite H2.
    by destruct descr. }
  assert (Hexpr : ∀ s0,
    Omv.o_filterDescription (Omv.m_decoderOptions (Omv.self (Omv.setDataFilter E expr s0)))
    = Omv.o_filterDescription (Omv.m_decoderOptions (Omv.self s0))
    ∧ Omv.o_dataFilter (Omv.m_decoderOptions (Omv.self (Omv.setDataFilter E expr s0)))
      = stored).
  { intros s0. pose proof (setDataFilter_run expr s0) as H. cbv zeta in H.
    by rewrite He in H. }
  assert (Hnull : ∀ s0,
    Omv.o_dataFilter (Omv.m_decoderOptions (Omv.self (Omv.setDataFilter E Omv.FNull s0)))
    = Omv.o_dataFilter (Omv.m_decoderOptions (Omv.self s0))
    ∧ Omv.o_filterDescription
        (Omv.m_decoderOptions (Omv.self (Omv.setDataFilter E Omv.FNull s0))) = None).
  { intros s0. pose proof (setDataFilter_run Omv.FNull s0) as H. cbv zeta in H.
    by rewrite Hn in H. }
  subst a b c. repeat split.
  - destruct (Hexpr (Omv.setDataFilter E descr st)) as [-> _]. apply Hdescr.
  - apply Hexpr.
  - apply Hdescr.
  - destruct (Hdescr (Omv.setDataFilter E expr st)) as [-> _]. apply Hexpr.
  - apply Hnull.
  - destruct (Hnull (Omv.setDataFilter E expr (Omv.setDataFilter E descr st))) as [-> _].
    apply Hexpr.
Qed.



(** X24: construction fails, with the message about the missing
    parameters, exactly when no data provider is given and [baseUrl] and
    [url] are each undefined or empty; a given data provider is used even
    when URLs are given too, in which case no REST client is created. *)
Theorem construct_fails_without_provider (p : Omv.Params) :
  (Omv.construct E p = inl Omv.missingProviderMessage
   ↔ Omv.dataProvider p = None
     ∧ Omv.truthyString (Omv.baseUrl p) = false
     ∧ Omv.truthyString (Omv.url p) = false)
  ∧ (∀ message, Omv.construct E p = inl message → message = Omv.missingProviderMessage)
  ∧ (∀ provider, Omv.dataProvider p = Some provider →
       ∃ ds, Omv.construct E p = inr ds
             ∧ Omv.getDataProvider p = inr (Omv.CustomDataProvider provider)).
Proof.
  unfold Omv.construct, Omv.getDataProvider.
  destruct (Omv.dataProvider p) as [prov |]; cbn.
  - split; [split; [discriminate | by intros [? _]] |].
    split; [discriminate |]. intros provider [= <-]. by eexists.
  - destruct (Omv.truthyString (Omv.baseUrl p)), (Omv.truthyString (Omv.url p)); cbn;
      (split; [split; [try discriminate; done | try (by intros (_ & ? & ?)); done] |]);
      (split; [try discriminate; by intros ? [= <-] | discriminate]).
Qed.

End OmvProperties.

Lemma run_brackets_every_configuration_witness :
  ∃ st0,
    Omv.constructed Omv.sampleEnv Omv.sampleParams = Some st0
    ∧ Omv.bracketed
        (Omv.calls
           (Omv.run Omv.sampleEnv
              [Omv.Connect (Some Omv.unknownService); Omv.Connect None;
               Omv.SetDataFilter (Omv.FValue 4); Omv.SetEnableElevationOverlay true;
               Omv.SetEnableElevationOverlay true; Omv.RemoveDataFilter;
               Omv.SetLanguages None; Omv.SetStorageLevelOffset 1%Z] st0)) = true.
Proof.
  eexists. split; [reflexivity |].
  apply run_brackets_every_configuration. reflexivity.
Defined.

Lemma setDataFilter_keeps_other_kind_witness :
  ∃ st0,
    Omv.constructed Omv.sampleEnv Omv.sampleParams = Some st0
    ∧ let a := Omv.m_decoderOptions
                 (Omv.self (Omv.setDataFilter Omv.sampleEnv (Omv.FValue 5)
                              (Omv.setDataFilter Omv.sampleEnv (Omv.FValue 9) st0))) in
      Omv.o_filterDescription a = Some (Omv.FValue 9)
      ∧ Omv.o_dataFilter a = Some (Omv.ToJSON (Omv.FValue 5)).
Proof.
  eexists. split; [reflexivity |].
  refine (proj1 (setDataFilter_keeps_other_kind Omv.sampleEnv
                   (Omv.FValue 9) (Omv.FValue 5) _ _ _ _ _));
    [reflexivity | reflexivity | reflexivity | discriminate].
Defined.

(** Two failing connects and a successful one: the hint is logged once,
    and the decoder is configured only by the successful connect, with
    the options fixed at construction. *)
Example connect_sequence :
  ∃ st0,
    Omv.constructed Omv.sampleEnv Omv.sampleParams = Some st0
    ∧ Omv.calls (Omv.run Omv.sampleEnv
                   [Omv.Connect (Some Omv.unknownService); Omv.Connect (Some Omv.unknownService); Omv.Connect None] st0)
      = [Omv.SuperConnect; Omv.LoggerInfo; Omv.SuperConnect; Omv.SuperConnect;
         Omv.ClearCache;
         Omv.DecoderConfigure None None None
           (Some (Omv.AllOptions
                    (Omv.mkDecoderOptions false (Some (Omv.FValue 7)) true false false
                       None None 2%Z false None)));
         Omv.MarkTilesDirty].
Proof. eexists. split; reflexivity. Qed.

(** A base-class connect that rejects with a value without a message: the
    test throws, [connect()] rejects with that exception instead of the
    value, and nothing is logged. *)
Example connect_rejects_with_test_exception :
  ∃ st0,
    Omv.constructed Omv.sampleEnv Omv.sampleParams = Some st0
    ∧ (Omv.connect Omv.sampleEnv (Some Omv.NoMessage) st0).1 = Some Omv.TestTypeError
    ∧ Omv.calls (Omv.connect Omv.sampleEnv (Some Omv.NoMessage) st0).2 = [Omv.SuperConnect]
    ∧ Omv.infoEmitted (Omv.connect Omv.sampleEnv (Some Omv.NoMessage) st0).2 = false.
Proof. eexists. repeat split. Qed.

(** An empty [url] counts as missing. *)
Example construct_with_empty_url :
  Omv.construct Omv.sampleEnv
    (Omv.mkParams None None None None None None None None None None None None None None
       None None None None None None None None None None None None (Some EmptyString))
  = inl Omv.missingProviderMessage.
Proof. reflexivity. Qed.
